(** * Percept3D: the camera stream UI

    A shallow embedding of [src/ui/camera_stream_ui.py] (class
    [CameraStreamUI]) and the properties checked against it.

    Conventions of the embedding:
    - Python [int] is [Z]; [//] is [Z.div] (both round to the floor).
    - Python [float] is IEEE binary64, here the kernel's primitive [float];
      [int(f)] truncates toward zero and raises on infinities and NaN.
    - An uncaught Python exception is a [Raise] in the [result] type.
    - numpy arrays live in a heap of references, since the code mutates the
      canvas in place and hands one frame to several drawing routines.
    - The collaborators (camera, window system, clock, screen metrics) are
      inputs of [run]; what [run] does to them is recorded as a trace. *)

From Stdlib Require Import ZArith Lia Bool.
From Stdlib Require Import Floats.PrimFloat Floats.FloatOps Floats.SpecFloat.
From stdpp Require Import gmap strings list.

Local Open Scope Z_scope.
#[local] Set Warnings "-inexact-float,-clear-no-such-hyp".

(** ** Python values: exceptions, ints and floats *)

Inductive pyexn :=
  | ZeroDivisionError
  | ValueError
  | OverflowError
  | IndexError
  | cv2_error.

Inductive result (A : Type) :=
  | Ok (a : A)
  | Raise (e : pyexn).
Arguments Ok {A} a.
Arguments Raise {A} e.

Definition rbind {A B} (m : result A) (k : A -> result B) : result B :=
  match m with
  | Ok a => k a
  | Raise e => Raise e
  end.

Notation "'try' x <- m ; k" := (rbind m (fun x => k))
  (at level 10, x name, m at level 100, k at level 200).

Module Py.

(** [float(z)]: the nearest binary64, [OverflowError] when there is none. *)
Definition float_of_int (z : Z) : result float :=
  let f := SF2Prim (binary_normalize prec emax z 0 false) in
  if is_infinity f then Raise OverflowError else Ok f.

(** [int(f)]: truncation toward zero. *)
Definition int_of_float (f : float) : result Z :=
  match Prim2SF f with
  | S754_zero _ => Ok 0
  | S754_finite s m e =>
      let v := if 0 <=? e then Z.pos m * 2 ^ e else Z.pos m / 2 ^ (- e) in
      Ok (if s then - v else v)
  | S754_infinity _ => Raise OverflowError
  | S754_nan => Raise ValueError
  end.

(** [a / b] on floats: Python raises where IEEE would give an infinity. *)
Definition fdiv (a b : float) : result float :=
  if is_zero b then Raise ZeroDivisionError else Ok (a / b)%float.

(** [a / b] on ints (true division). The operands are converted first,
    which is the correctly rounded quotient for operands below 2^53. *)
Definition truediv (a b : Z) : result float :=
  try fa <- float_of_int a;
  try fb <- float_of_int b;
  fdiv fa fb.

(** [int(n * r)] for an int [n] and a float [r]. *)
Definition int_mul (n : Z) (r : float) : result Z :=
  try fn <- float_of_int n;
  int_of_float (fn * r)%float.

(** Truthiness of a value that is [None] or a [str]. *)
Definition truthy (o : option string) : bool :=
  match o with
  | Some s => negb (String.eqb s "")
  | None => false
  end.

End Py.

(** ** The object state ([__init__]) *)

(** A pixel: three 8-bit channels, in OpenCV's order (0 blue, 1 green,
    2 red). *)
Record pixel := Pixel { ch0 : Z; ch1 : Z; ch2 : Z }.

Record CameraStreamUI := {
  camera_index : Z;
  prev_time : float;
  fps : float;
  selected_filter : option string;   (* 'red', 'green', 'blue', or None *)
  header_height : Z;
  button_width : Z;
  button_height : Z;
  button_margin : Z;
  bg_color : pixel
}.

(** [__init__]; [now] is the clock reading [time.time()]. *)
Definition init (index : Z) (now : float) : CameraStreamUI := {|
  camera_index := index;
  prev_time := now;
  fps := 0%float;
  selected_filter := None;
  header_height := 80;
  button_width := 200;
  button_height := 50;
  button_margin := 30;
  bg_color := Pixel 40 40 40
|}.

Definition set_selected_filter (self : CameraStreamUI) (v : option string)
  : CameraStreamUI := {|
  camera_index := camera_index self;
  prev_time := prev_time self;
  fps := fps self;
  selected_filter := v;
  header_height := header_height self;
  button_width := button_width self;
  button_height := button_height self;
  button_margin := button_margin self;
  bg_color := bg_color self
|}.

(** ** [update_fps] *)

(** [current_time] is the clock reading [time.time()] of this call. The
    division is evaluated before either attribute is assigned, so a raise
    leaves the object as it was. *)
Definition update_fps (self : CameraStreamUI) (current_time : float)
  : result CameraStreamUI :=
  try f <- Py.fdiv 1%float (current_time - prev_time self)%float;
  Ok {|
    camera_index := camera_index self;
    prev_time := current_time;
    fps := f;
    selected_filter := selected_filter self;
    header_height := header_height self;
    button_width := button_width self;
    button_height := button_height self;
    button_margin := button_margin self;
    bg_color := bg_color self
  |}.

(** Two floats agree up to the relative error [tol]. *)
Definition close_to (tol x y : float) : bool :=
  (abs (x - y) <=? tol * abs y)%float.

(** ** numpy arrays and the heap of references *)

(** A colour image of shape (rows, cols, 3), row-major. The width is read
    off the first row, so an image without rows counts as having no
    columns. *)
Abbreviation ndarray := (list (list pixel)).

Definition nrows (a : ndarray) : Z := Z.of_nat (length a).
Definition ncols (a : ndarray) : Z := Z.of_nat (length (default [] (head a))).

(** Every row is as wide as the first: what numpy guarantees of an array. *)
Definition rectangular (a : ndarray) : Prop :=
  Forall (fun row => Z.of_nat (length row) = ncols a) a.

#[global] Instance rectangular_dec a : Decision (rectangular a).
Proof. unfold rectangular. apply _. Defined.

(** The array whose element at row [r], column [c] is [f r c]. *)
Definition tabulate (rows cols : Z) (f : Z -> Z -> pixel) : ndarray :=
  (fun r => f r <$> seqZ 0 cols) <$> seqZ 0 rows.

(** Channel [i] of a pixel, [i] in 0..2, and its update. *)
Definition chan (i : Z) (p : pixel) : Z :=
  if i =? 0 then ch0 p else if i =? 1 then ch1 p else ch2 p.

Definition set_chan (i : Z) (v : Z) (p : pixel) : pixel :=
  if i =? 0 then Pixel v (ch1 p) (ch2 p)
  else if i =? 1 then Pixel (ch0 p) v (ch2 p)
  else Pixel (ch0 p) (ch1 p) v.

(** [np.zeros_like(a)] *)
Definition zeros_like (a : ndarray) : ndarray :=
  fmap (M := list) (fmap (M := list) (fun _ => Pixel 0 0 0)) a.

(** [dst[:, :, i] = src[:, :, i]] for two arrays of one shape. *)
Definition assign_channel (i : Z) (src dst : ndarray) : ndarray :=
  zip_with (zip_with (fun s d => set_chan i (chan i s) d)) src dst.

Definition loc := positive.
Abbreviation heap := (gmap loc ndarray).

(** Computations on the heap that may raise. *)
Definition M (A : Type) : Type := heap -> result (A * heap).

Definition ret {A} (a : A) : M A := fun h => Ok (a, h).

Definition bind {A B} (m : M A) (k : A -> M B) : M B :=
  fun h => match m h with
           | Ok (a, h') => k a h'
           | Raise e => Raise e
           end.

Notation "'do' x <- m ; k" := (bind m (fun x => k))
  (at level 10, x name, m at level 100, k at level 200).
Notation "'do_' m ; k" := (bind m (fun _ => k))
  (at level 10, m at level 100, k at level 200).

Definition lift {A} (r : result A) : M A :=
  fun h => match r with Ok a => Ok (a, h) | Raise e => Raise e end.

(** A new array object. *)
Definition alloc (a : ndarray) : M loc :=
  fun h => let l := fresh (dom h) in Ok (l, <[l := a]> h).

(** The array a reference denotes. A reference outside the heap is not a
    situation Python has; the model answers it with [IndexError]. *)
Definition load (l : loc) : M ndarray :=
  fun h => match h !! l with
           | Some a => Ok (a, h)
           | None => Raise IndexError
           end.

(** In-place update of the array behind a reference. *)
Definition store (l : loc) (a : ndarray) : M unit :=
  fun h => match h !! l with
           | Some _ => Ok (tt, <[l := a]> h)
           | None => Raise IndexError
           end.

(** ** [apply_filter] *)

Definition apply_filter (frame : loc) (color : option string) : M loc :=
  do src <- load frame;
  do filtered <- alloc (zeros_like src);
  do_ (if decide (color = Some "red") then
         do src <- load frame; do dst <- load filtered;
         store filtered (assign_channel 2 src dst)
       else if decide (color = Some "green") then
         do src <- load frame; do dst <- load filtered;
         store filtered (assign_channel 1 src dst)
       else if decide (color = Some "blue") then
         do src <- load frame; do dst <- load filtered;
         store filtered (assign_channel 0 src dst)
       else ret tt);
  ret filtered.

(** [frame.copy()] *)
Definition ndarray_copy (frame : loc) : M loc :=
  do src <- load frame;
  alloc src.

(** The frame the processed panel shows: the first statement of
    [draw_processed_stream]. *)
Definition processed_frame (self : CameraStreamUI) (cam_frame : loc) : M loc :=
  if Py.truthy (selected_filter self)
  then apply_filter cam_frame (selected_filter self)
  else ndarray_copy cam_frame.

(** The channel a filter name stands for in OpenCV's blue-green-red order. *)
Definition channel_of (color : string) : option Z :=
  if decide (color = "red") then Some 2
  else if decide (color = "green") then Some 1
  else if decide (color = "blue") then Some 0
  else None.

(** The pixel at row [r], column [c], if any. *)
Definition pixel_at (a : ndarray) (r c : nat) : option pixel :=
  a !! r ≫= fun row => row !! c.

(** ** The header's buttons: [draw_header] and [get_button_clicked] *)

(** A rectangle [(x, y, w, h)]. *)
Definition rect : Type := Z * Z * Z * Z.

Definition lower_ascii (a : Ascii.ascii) : Ascii.ascii :=
  let n := Ascii.nat_of_ascii a in
  if ((65 <=? n) && (n <=? 90))%nat then Ascii.ascii_of_nat (n + 32) else a.

(** [str.lower()] on ASCII text. *)
Fixpoint lower (s : string) : string :=
  match s with
  | EmptyString => EmptyString
  | String a s' => String (lower_ascii a) (lower s')
  end.

(** The loop of [draw_header] over its three buttons: the name of each and
    its [btn_rect], in the coordinates of [header_panel], for a header of
    size [w] by [h]. The colours and icons zipped with the names do not
    enter the geometry. *)
Definition header_buttons (self : CameraStreamUI) (w h : Z)
  : list (string * rect) :=
  let total_buttons_width := 3 * button_width self + 2 * button_margin self in
  let panel_width := w in
  let start_x := (panel_width - total_buttons_width) / 2 in
  let y_btn := (h - button_height self) / 2 in
  imap (fun i name =>
          let x_btn := start_x + Z.of_nat i * (button_width self + button_margin self) in
          (name, (x_btn, y_btn, button_width self, button_height self)))
       ["Red"; "Green"; "Blue"]%string.

(** The corner radius of a button. *)
Definition radius : Z := 18.

(** The two filled rectangles [draw_header] paints for a button (OpenCV
    fills both corner points of a rectangle inclusively). The four corner
    discs it adds lie inside [btn_rect] too. *)
Definition button_body (b : rect) (px py : Z) : bool :=
  let '(x_btn, y_btn, bw, bh) := b in
  ((x_btn + radius <=? px) && (px <=? x_btn + bw - radius)
   && (y_btn <=? py) && (py <=? y_btn + bh))
  || ((x_btn <=? px) && (px <=? x_btn + bw)
      && (y_btn + radius <=? py) && (py <=? y_btn + bh - radius)).

(** The point lies in [btn_rect], the extent of the drawn button. *)
Definition in_btn_rect (b : rect) (px py : Z) : bool :=
  let '(x_btn, y_btn, bw, bh) := b in
  (x_btn <=? px) && (px <=? x_btn + bw) && (y_btn <=? py) && (py <=? y_btn + bh).

(** The button whose [btn_rect] holds the canvas point [(px, py)] when
    [draw_header] draws the header at [(x, y)] with size [(w, h)]: the
    filter it stands for ([name.lower()], the value the highlight compares
    with). [btn_rect] bounds what is painted of the button, whose corners
    are rounded; [button_body] is the part filled by the two rectangles.
    [header_panel] is the view [panel[y:y+h, x:x+w]], so nothing is drawn
    outside it. *)
Definition drawn_button (self : CameraStreamUI) (x y w h : Z) (px py : Z)
  : option string :=
  if (x <=? px) && (px <? x + w) && (y <=? py) && (py <? y + h) then
    fst <$> head (filter (fun b => in_btn_rect (snd b) (px - x) (py - y) = true)
                         (prod_map lower id <$> header_buttons self w h))
  else None.

(** [enumerate(names)] *)
Definition enumerate {A} (l : list A) : list (nat * A) := imap pair l.

(** A [for] loop whose body returns on the first item that passes [test],
    and which falls through to [return None]. *)
Fixpoint return_first (test : nat -> bool) (items : list (nat * string))
  : option string :=
  match items with
  | [] => None
  | (i, name) :: rest => if test i then Some name else return_first test rest
  end.

Definition get_button_clicked (self : CameraStreamUI) (x y panel_width : Z)
  : option string :=
  let total_buttons_width := 3 * button_width self + 2 * button_margin self in
  let start_x := (panel_width - total_buttons_width) / 2 in
  return_first
    (fun i =>
       let bx := start_x + Z.of_nat i * (button_width self + button_margin self) in
       let by_ := (header_height self - button_height self) / 2 in
       (bx <=? x) && (x <=? bx + button_width self)
       && (by_ <=? y) && (y <=? by_ + button_height self))
    (enumerate ["red"; "green"; "blue"]%string).

(** ** [mouse_callback] *)

Definition EVENT_LBUTTONDOWN : Z := 1.

(** [param] is [None] or a dict; an empty dict is falsy. *)
Definition mouse_callback (self : CameraStreamUI) (event x y flags : Z)
    (param : option (gmap string Z)) : CameraStreamUI :=
  if (event =? EVENT_LBUTTONDOWN) && (y <? header_height self) then
    let panel_width :=
      match param with
      | Some d =>
          if decide (d = ∅) then 1920
          else match d !! "panel_width"%string with
               | Some v => v
               | None => 1920
               end
      | None => 1920
      end in
    let clicked := get_button_clicked self x y panel_width in
    if Py.truthy clicked then set_selected_filter self clicked else self
  else self.

(** ** The layout computed by [run] *)

Record layout := {
  header_rect : rect;
  footer_rect : rect;
  orig_rect : rect;
  proc_rect : rect
}.

(** Lines 202 to 210 of [run]. *)
Definition compute_layout (screen_w screen_h : Z) : result layout :=
  try header_height <- Py.int_mul screen_h 0.10%float;
  try footer_height <- Py.int_mul screen_h 0.10%float;
  let stream_panel_height := screen_h - header_height - footer_height in
  let stream_panel_width := screen_w / 2 in
  Ok {|
    header_rect := (0, 0, screen_w, header_height);
    footer_rect := (0, screen_h - footer_height, screen_w, footer_height);
    orig_rect := (0, header_height, stream_panel_width, stream_panel_height);
    proc_rect := (stream_panel_width, header_height,
                  stream_panel_width, stream_panel_height)
  |}.

Definition rect_w (r : rect) : Z := let '(_, _, w, _) := r in w.
Definition rect_h (r : rect) : Z := let '(_, _, _, h) := r in h.

(** The canvas cells a rectangle covers: column [px], row [py]. *)
Definition covers (r : rect) (px py : Z) : Prop :=
  let '(x, y, w, h) := r in x <= px < x + w /\ y <= py < y + h.

(** The row widths of an array: its shape, row by row. *)
Definition widths (a : ndarray) : list nat := length <$> a.

(** ** numpy slices and element access *)

(** [slice(start, stop).indices(len)]: negative bounds count from the end,
    and both are clamped to [0, len]. *)
Definition slice_indices (start stop len : Z) : Z * Z :=
  let clamp i := if i <? 0 then Z.max (i + len) 0 else Z.min i len in
  (clamp start, clamp stop).

(** Reading and writing one element of the array's buffer. Going outside
    the buffer is the [IndexError] of this model. *)
Definition getitem (a : ndarray) (r c : Z) : result pixel :=
  if (0 <=? r) && (0 <=? c) then
    match pixel_at a (Z.to_nat r) (Z.to_nat c) with
    | Some p => Ok p
    | None => Raise IndexError
    end
  else Raise IndexError.

Definition setitem (a : ndarray) (r c : Z) (v : pixel) : result ndarray :=
  if (0 <=? r) && (0 <=? c) then
    match a !! Z.to_nat r with
    | Some row =>
        if (Z.to_nat c <? length row)%nat
        then Ok (<[Z.to_nat r := <[Z.to_nat c := v]> row]> a)
        else Raise IndexError
    | None => Raise IndexError
    end
  else Raise IndexError.

(** The cells of [th] rows from [ys] and [tw] columns from [xs]. *)
Definition cells (ys th xs tw : Z) : list (Z * Z) :=
  flat_map (fun r => pair r <$> seqZ xs tw) (seqZ ys th).

(** A value axis of length [v] fits a target axis of length [t]. *)
Definition broadcastable (v t : Z) : bool := (v =? t) || (v =? 1).

Fixpoint write_cells (a v : ndarray) (ys xs : Z) (todo : list (Z * Z))
  : result ndarray :=
  match todo with
  | [] => Ok a
  | (r, c) :: rest =>
      try p <- getitem v (if nrows v =? 1 then 0 else r - ys)
                         (if ncols v =? 1 then 0 else c - xs);
      try a' <- setitem a r c p;
      write_cells a' v ys xs rest
  end.

(** A cell of the canvas whose source element exists in the value. *)
Definition cell_in_range (a v : ndarray) (ys xs : Z) (rc : Z * Z) : Prop :=
  0 <= fst rc < nrows a /\ 0 <= snd rc < ncols a
  /\ 0 <= (if nrows v =? 1 then 0 else fst rc - ys) < nrows v
  /\ 0 <= (if ncols v =? 1 then 0 else snd rc - xs) < ncols v.

(** [a[y0:y1, x0:x1] = v]: the slice is resolved against the array's shape,
    the value must broadcast to the slice's shape ([ValueError] otherwise),
    and then every cell of the slice is written. *)
Definition slice_assign (a : ndarray) (y0 y1 x0 x1 : Z) (v : ndarray)
  : result ndarray :=
  let '(ys, ye) := slice_indices y0 y1 (nrows a) in
  let '(xs, xe) := slice_indices x0 x1 (ncols a) in
  let th := Z.max 0 (ye - ys) in
  let tw := Z.max 0 (xe - xs) in
  if broadcastable (nrows v) th && broadcastable (ncols v) tw
  then write_cells a v ys xs (cells ys th xs tw)
  else Raise ValueError.

(** [np.full((rows, cols, 3), v, dtype=np.uint8)] *)
Definition np_full (rows cols : Z) (v : pixel) : M loc :=
  if (rows <? 0) || (cols <? 0) then lift (Raise ValueError)
  else alloc (tabulate rows cols (fun _ _ => v)).

(** Every element replaced by a function of its position and old value. *)
Definition paint (a : ndarray) (f : Z -> Z -> pixel -> pixel) : ndarray :=
  imap (fun r row => imap (fun c old => f (Z.of_nat r) (Z.of_nat c) old) row) a.

(** [cv2.rectangle(img, pt1, pt2, color, -1)]: filled, both corners
    included, clipped to the image. *)
Definition cv2_rectangle (a : ndarray) (pt1 pt2 : Z * Z) (color : pixel)
  : ndarray :=
  paint a (fun r c old =>
    if (Z.min (fst pt1) (fst pt2) <=? c) && (c <=? Z.max (fst pt1) (fst pt2))
       && (Z.min (snd pt1) (snd pt2) <=? r) && (r <=? Z.max (snd pt1) (snd pt2))
    then color else old).

(** ** The compositor *)

Section Rendering.

(** Two pieces of OpenCV are taken as given: the interpolation of
    [cv2.resize] (the pixel at a row and column of the source resized to a
    width and height), and what the text, discs, rectangles and blending of
    [draw_header] leave at a row and column of [header_panel], given the
    object, the buttons, the header's size and the pixel that was there. *)
Variable cv2_interp : ndarray -> Z -> Z -> Z -> Z -> pixel.
Variable cv2_header_ink :
  CameraStreamUI -> list (string * rect) -> Z -> Z -> Z -> Z -> pixel -> pixel.

(** [cv2.resize(src, (dw, dh))] *)
Definition cv2_resize (src : ndarray) (dw dh : Z) : result ndarray :=
  if (dw <=? 0) || (dh <=? 0) || (nrows src =? 0) || (ncols src =? 0)
  then Raise cv2_error
  else Ok (tabulate dh dw (cv2_interp src dw dh)).

Definition draw_header (self : CameraStreamUI) (panel : loc) (x y w h : Z)
  : M unit :=
  do p <- load panel;
  let '(ys, ye) := slice_indices y (y + h) (nrows p) in
  let '(xs, xe) := slice_indices x (x + w) (ncols p) in
  let buttons := header_buttons self w h in
  store panel
    (paint p (fun r c old =>
       if (ys <=? r) && (r <? ye) && (xs <=? c) && (c <? xe)
       then cv2_header_ink self buttons w h (r - ys) (c - xs) old
       else old)).

Definition draw_footer (panel : loc) (x y w h : Z) : M unit :=
  do p <- load panel;
  store panel (cv2_rectangle p (x, y) (x + w, y + h) (Pixel 30 34 40)).

(** Lines 139 to 143: [(display_w, display_h)] for a frame and a ratio. *)
Definition display_size (f : ndarray) (ratio : float) : result (Z * Z) :=
  let h_f := nrows f in
  let w_f := ncols f in
  try aspect <- Py.truediv w_f h_f;
  try display_w <- Py.int_mul w_f ratio;
  try display_h <- (try dwf <- Py.float_of_int display_w;
                    try q <- Py.fdiv dwf aspect;
                    Py.int_of_float q);
  Ok (display_w, display_h).

(** Lines 137 to 150, which [draw_processed_stream] repeats as lines 160 to
    173: scale the frame, centre it on the rectangle, write it. *)
Definition place_stream (panel frame : loc) (x y w h : Z) (ratio : float)
  : M (Z * Z * Z * Z) :=
  let xc := x + w / 2 in
  let yc := y + h / 2 in
  do f <- load frame;
  do size <- lift (display_size f ratio);
  let '(display_w, display_h) := size in
  do resized <- lift (cv2_resize f display_w display_h);
  let x1 := xc - display_w / 2 in
  let y1 := yc - display_h / 2 in
  do p <- load panel;
  do p' <- lift (slice_assign p y1 (y1 + display_h) x1 (x1 + display_w) resized);
  do_ store panel p';
  ret (x1, y1, display_h, display_w).

Definition draw_original_stream (self : CameraStreamUI)
    (panel cam_frame : loc) (x y w h : Z) (ratio : float)
  : M (Z * Z * Z * Z) :=
  place_stream panel cam_frame x y w h ratio.

Definition draw_processed_stream (self : CameraStreamUI)
    (panel cam_frame : loc) (x y w h : Z) (ratio : float)
  : M (Z * Z * Z * Z) :=
  do proc_frame <- processed_frame self cam_frame;
  place_stream panel proc_frame x y w h ratio.

(** ** [run] *)

(** What the session does to its collaborators, in order. *)
Inductive event :=
  | EvPrint (msg : string)
  | EvNamedWindow (name : string)
  | EvSetWindowProperty (name : string)
  | EvSetMouseCallback (name : string) (param : gmap string Z)
  | EvImshow (name : string) (canvas : ndarray)
  | EvRelease
  | EvDestroyAllWindows.

(** What the collaborators hand to the session. A pointer event reaches
    [mouse_callback] while [cv2.waitKey] runs. *)
Record pointer := { p_event : Z; p_x : Z; p_y : Z; p_flags : Z }.

Record tick := {
  tk_read : option ndarray;      (* [cap.read()]: [None] when [ret] is false *)
  tk_time : float;               (* [time.time()] in [update_fps] *)
  tk_pointer : list pointer;     (* events dispatched during [cv2.waitKey(1)] *)
  tk_key : Z                     (* the value of [cv2.waitKey(1)] *)
}.

Record world := {
  cap_isOpened : bool;
  first_read : option ndarray;   (* the read of line 193 *)
  screen_resolution : Z * Z;
  ticks : list tick              (* the iterations the world has inputs for *)
}.

(** How a call of [run] ends: it returns, an exception escapes it, or it is
    still looping when the inputs of [ticks] are used up. *)
Inductive outcome :=
  | Returned
  | Uncaught (e : pyexn)
  | Looping.

Definition window_name : string := "Percept3D".
Definition default_ratio : float := 1.2%float.

(** Lines 218 to 226: one canvas from one frame. *)
Definition compose (self : CameraStreamUI) (frame : ndarray)
    (screen_w screen_h : Z) (l : layout) : M ndarray :=
  do frame <- alloc frame;
  do panel <- np_full screen_h screen_w (bg_color self);
  do_ (let '(x, y, w, h) := header_rect l in draw_header self panel x y w h);
  do_ (let '(x, y, w, h) := footer_rect l in draw_footer panel x y w h);
  do _ <- (let '(x, y, w, h) := orig_rect l in
           draw_original_stream self panel frame x y w h default_ratio);
  do _ <- (let '(x, y, w, h) := proc_rect l in
           draw_processed_stream self panel frame x y w h default_ratio);
  load panel.

(** The [while True] loop, one iteration per element of the list. A [break]
    is [Returned] here; the statements after the loop are in [run]. *)
Fixpoint main_loop (self : CameraStreamUI) (screen_w screen_h : Z)
    (l : layout) (h : heap) (todo : list tick)
  : outcome * CameraStreamUI * list event :=
  match todo with
  | [] => (Looping, self, [])
  | t :: rest =>
      match tk_read t with
      | None => (Returned, self, [EvPrint "Error: Failed to read frame."])
      | Some frame =>
          match update_fps self (tk_time t) with
          | Raise e => (Uncaught e, self, [])
          | Ok self =>
              match compose self frame screen_w screen_h l h with
              | Raise e => (Uncaught e, self, [])
              | Ok (canvas, h) =>
                  let self :=
                    foldl (fun s p =>
                             mouse_callback s (p_event p) (p_x p) (p_y p)
                               (p_flags p)
                               (Some {[ "panel_width"%string := screen_w ]}))
                          self (tk_pointer t) in
                  if Z.land (tk_key t) 255 =? 113 (* ord('q') *)
                  then (Returned, self, [EvImshow window_name canvas])
                  else
                    let '(o, self, evs) :=
                      main_loop self screen_w screen_h l h rest in
                    (o, self, EvImshow window_name canvas :: evs)
              end
          end
      end
  end.

Definition run (self : CameraStreamUI) (w : world)
  : outcome * CameraStreamUI * list event :=
  if negb (cap_isOpened w) then
    (Returned, self, [EvPrint "Error: Could not open camera."])
  else
    let opened := [EvNamedWindow window_name; EvSetWindowProperty window_name] in
    match first_read w with
    | None =>
        (Returned, self, opened ++ [EvPrint "Error: Failed to read frame."])
    | Some frame =>
        match Py.truediv (ncols frame) (nrows frame) with
        | Raise e => (Uncaught e, self, opened)
        | Ok cam_aspect =>
            let '(screen_w, screen_h) := screen_resolution w in
            match compute_layout screen_w screen_h with
            | Raise e => (Uncaught e, self, opened)
            | Ok l =>
                let registered :=
                  opened ++ [EvSetMouseCallback window_name
                               {[ "panel_width"%string := screen_w ]}] in
                match main_loop self screen_w screen_h l ∅ (ticks w) with
                | (Returned, self, evs) =>
                    (Returned, self,
                     registered ++ evs ++ [EvRelease; EvDestroyAllWindows])
                | (o, self, evs) => (o, self, registered ++ evs)
                end
            end
        end
    end.

End Rendering.

(** ** The selection as the methods leave it *)

(** The values the comment of [__init__] allows for [selected_filter]. *)
Definition valid_filter (o : option string) : Prop :=
  o = None \/ o = Some "red"%string \/ o = Some "green"%string
  \/ o = Some "blue"%string.

(** A call of one of the methods that assign attributes of the object. *)
Inductive call :=
  | CallUpdateFps (current_time : float)
  | CallMouseCallback (event x y flags : Z) (param : option (gmap string Z))
  | CallRun (w : world).

(** The object after a call; a call that raises before it assigns anything
    leaves the object as it was. *)
Definition after_call
    (cv2_interp : ndarray -> Z -> Z -> Z -> Z -> pixel)
    (cv2_header_ink :
       CameraStreamUI -> list (string * rect) -> Z -> Z -> Z -> Z -> pixel -> pixel)
    (self : CameraStreamUI) (c : call) : CameraStreamUI :=
  match c with
  | CallUpdateFps t =>
      match update_fps self t with
      | Ok self' => self'
      | Raise _ => self
      end
  | CallMouseCallback event x y flags param =>
      mouse_callback self event x y flags param
  | CallRun w => snd (fst (run cv2_interp cv2_header_ink self w))
  end.

(** ** Sample collaborators for concrete runs *)

(** Nearest-neighbour sampling, standing in for the interpolation. *)
Definition nearest_interp (src : ndarray) (dw dh r c : Z) : pixel :=
  default (Pixel 0 0 0)
    (pixel_at src (Z.to_nat (r * nrows src / dh)) (Z.to_nat (c * ncols src / dw))).

(** A header that leaves the background as it is. *)
Definition no_ink (self : CameraStreamUI) (buttons : list (string * rect))
    (w h r c : Z) (old : pixel) : pixel := old.

(** A camera frame of [rows] by [cols]. *)
Definition sample_frame (rows cols : Z) : ndarray :=
  tabulate rows cols (fun r c => Pixel (10 * r + c) 7 200).

(** A canvas of 12 rows by 16 columns behind reference 1 and a camera frame
    of [rows] by [cols] behind reference 2. *)
Definition sample_heap (rows cols : Z) : heap :=
  {[ 1%positive := tabulate 12 16 (fun _ _ => Pixel 40 40 40);
     2%positive := sample_frame rows cols ]}.

(** A screen of 16 by 12 and a camera that opened; what it delivers at
    line 193 and in the loop is left to the arguments. *)
Definition sample_world (first : option ndarray) (todo : list tick) : world :=
  {| cap_isOpened := true; first_read := first;
     screen_resolution := (16, 12); ticks := todo |}.

(** An iteration that reads [frame] at clock reading [now], sees the
    pointer events [ps] and then the key [key]. *)
Definition sample_tick (frame : option ndarray) (now : float)
    (ps : list pointer) (key : Z) : tick :=
  {| tk_read := frame; tk_time := now; tk_pointer := ps; tk_key := key |}.

(** The capture is released and the windows are destroyed, in this order
    and as the last two actions, and nowhere before. *)
Definition ends_with_cleanup (evs : list event) : Prop :=
  exists body,
    evs = body ++ [EvRelease; EvDestroyAllWindows]
    /\ Forall (fun ev => ev <> EvRelease /\ ev <> EvDestroyAllWindows) body.

(** ** Notions used to state further properties *)

(** The names the hit test goes through, in its order. *)
Definition filter_names : list string := ["red"; "green"; "blue"]%string.

(** The rectangle the hit test gives the button at position [i], edges
    included. *)
Definition in_hit_rect (self : CameraStreamUI) (panel_width : Z) (i : nat)
    (x y : Z) : Prop :=
  let start_x :=
    (panel_width - (3 * button_width self + 2 * button_margin self)) / 2 in
  let bx := start_x + Z.of_nat i * (button_width self + button_margin self) in
  let by_ := (header_height self - button_height self) / 2 in
  bx <= x <= bx + button_width self /\ by_ <= y <= by_ + button_height self.

(** The width [mouse_callback] takes from its [param]. *)
Definition param_width (param : option (gmap string Z)) : Z :=
  match param with
  | Some d => default 1920 (d !! "panel_width"%string)
  | None => 1920
  end.


(** The frame that keeps channel [k] of [a] and has zero elsewhere. *)
Definition keep_channel (k : Z) (a : ndarray) : ndarray :=
  fmap (M := list)
    (fmap (M := list) (fun p => set_chan k (chan k p) (Pixel 0 0 0))) a.


(** Two results agree: both raise the same exception, or both return and
    the values are related by [R]. *)
Definition same_outcome {A B} (R : A -> B -> Prop)
    (r1 : result A) (r2 : result B) : Prop :=
  match r1, r2 with
  | Ok a, Ok b => R a b
  | Raise e1, Raise e2 => e1 = e2
  | _, _ => False
  end.

(** The canvas behind [panel] has the row widths [ws]. *)
Definition shaped (panel : loc) (ws : list nat) (hp : heap) : Prop :=
  exists P, hp !! panel = Some P /\ widths P = ws.


(** The world [w] with other inputs for the loop. *)
Definition with_ticks (w : world) (todo : list tick) : world :=
  {| cap_isOpened := cap_isOpened w; first_read := first_read w;
     screen_resolution := screen_resolution w; ticks := todo |}.

(** ** The look of the buttons in [draw_header] *)

(** Lines 54 and 55: the colours and the names, in the order of the loop. *)
Definition button_colors : list pixel :=
  [Pixel 60 60 220; Pixel 60 220 60; Pixel 220 60 60].
Definition button_names : list string := ["Red"; "Green"; "Blue"]%string.

(** [tuple(min(255, c+60) for c in color)] *)
Definition brighten (color : pixel) : pixel :=
  Pixel (Z.min 255 (ch0 color + 60)) (Z.min 255 (ch1 color + 60))
        (Z.min 255 (ch2 color + 60)).

(** Line 66: [btn_color]. *)
Definition btn_color (self : CameraStreamUI) (name : string) (color : pixel)
  : pixel :=
  if decide (selected_filter self <> Some (lower name)) then color
  else brighten color.

(** Line 74: [alpha]. *)
Definition btn_alpha (self : CameraStreamUI) (name : string) : float :=
  if decide (selected_filter self <> Some (lower name)) then 0.92%float
  else 1.0%float.

(** The name, fill colour and opacity of each button, in the order of the
    loop. *)
Definition button_styles (self : CameraStreamUI)
  : list (string * pixel * float) :=
  zip_with (fun color name =>
              (name, btn_color self name color, btn_alpha self name))
           button_colors button_names.


(** Every object of [hp] other than [panel] is the same in [hp']. *)
Definition keeps_others (panel : loc) (hp hp' : heap) : Prop :=
  forall l, l <> panel -> is_Some (hp !! l) -> hp' !! l = hp !! l.

(** * Properties *)

(** ** The filter stage *)

Lemma zeros_like_length (a : ndarray) : length (zeros_like a) = length a.
Proof. unfold zeros_like. by rewrite length_fmap. Qed.

Lemma assign_channel_zeros_widths (i : Z) (a : ndarray) :
  length <$> assign_channel i a (zeros_like a) = length <$> a.
Proof.
  unfold assign_channel, zeros_like.
  induction a as [|row a IH]; simpl; [done|].
  f_equal; [|exact IH].
  rewrite length_zip_with, length_fmap. lia.
Qed.

Lemma assign_channel_zeros_pixel (i : Z) (a : ndarray) (r c : nat) (p : pixel) :
  pixel_at a r c = Some p ->
  pixel_at (assign_channel i a (zeros_like a)) r c
  = Some (set_chan i (chan i p) (Pixel 0 0 0)).
Proof.
  unfold pixel_at, assign_channel, zeros_like. intros Hp.
  destruct (a !! r) as [row|] eqn:Hr; simpl in Hp; [|done].
  rewrite lookup_zip_with, Hr. simpl.
  rewrite list_lookup_fmap, Hr. simpl.
  rewrite lookup_zip_with, Hp. simpl.
  by rewrite list_lookup_fmap, Hp.
Qed.

Lemma set_chan_isolates (k v : Z) :
  0 <= k <= 2 ->
  chan k (set_chan k v (Pixel 0 0 0)) = v
  /\ forall j, 0 <= j <= 2 -> j <> k -> chan j (set_chan k v (Pixel 0 0 0)) = 0.
Proof.
  intros Hk.
  assert (k = 0 \/ k = 1 \/ k = 2) as [-> | [-> | ->]] by lia; split; try done;
    intros j Hj Hne;
    assert (j = 0 \/ j = 1 \/ j = 2) as [-> | [-> | ->]] by lia; done.
Qed.

Lemma channel_of_cases (color : string) (k : Z) :
  channel_of color = Some k ->
  (color = "red" /\ k = 2) \/ (color = "green" /\ k = 1)
  \/ (color = "blue" /\ k = 0).
Proof.
  unfold channel_of. intros H.
  repeat case_decide; simplify_eq; auto.
Qed.

Lemma apply_filter_run (h : heap) (frame : loc) (F : ndarray)
    (color : string) (k : Z) :
  h !! frame = Some F ->
  channel_of color = Some k ->
  apply_filter frame (Some color) h
  = Ok (fresh (dom h),
        <[fresh (dom h) := assign_channel k F (zeros_like F)]> h).
Proof.
  intros HF Hk.
  assert (h !! fresh (dom h) = None) as Hnew
    by (apply not_elem_of_dom, is_fresh).
  assert (fresh (dom h) <> frame) as Hne by (intros E; congruence).
  unfold apply_filter, bind, load, alloc, store, ret.
  rewrite HF. simpl.
  destruct (channel_of_cases _ _ Hk) as [[-> ->] | [[-> ->] | [-> ->]]];
    repeat (case_decide; [|try congruence]); try congruence;
    rewrite ?lookup_insert_eq, ?(lookup_insert_ne _ _ _ _ Hne), ?HF;
    simpl; rewrite ?lookup_insert_eq, ?insert_insert_eq; try done.
Qed.

(** With no selection [apply_filter] itself would return a black frame; it
    is the guard of [draw_processed_stream] that keeps it from being
    called. *)
Lemma apply_filter_None_black (h : heap) (frame : loc) (F : ndarray) :
  h !! frame = Some F ->
  apply_filter frame None h
  = Ok (fresh (dom h), <[fresh (dom h) := zeros_like F]> h).
Proof.
  intros HF. unfold apply_filter, bind, load, alloc, ret.
  rewrite HF. simpl. by repeat (case_decide; [congruence|]).
Qed.

(** C2: for a frame [F] and a channel red, green or blue, the filter
    returns a new array object and leaves [F] and every other object as
    they were; the new frame has [F]'s height and [F]'s row widths; at each
    position its selected channel holds [F]'s value and its two other
    channels hold zero. The processed panel runs this very filter when one
    of the three names is selected. *)
Theorem apply_filter_isolates_channel (self : CameraStreamUI) (h : heap)
    (frame : loc) (F : ndarray) (color : string) (k : Z) :
  h !! frame = Some F ->
  channel_of color = Some k ->
  exists (out : loc) (F' : ndarray),
    apply_filter frame (Some color) h = Ok (out, <[out := F']> h)
    /\ processed_frame (set_selected_filter self (Some color)) frame h
       = Ok (out, <[out := F']> h)
    /\ h !! out = None
    /\ <[out := F']> h !! frame = Some F
    /\ (forall l, l <> out -> <[out := F']> h !! l = h !! l)
    /\ length F' = length F
    /\ length <$> F' = length <$> F
    /\ forall r c p, pixel_at F r c = Some p ->
         exists p', pixel_at F' r c = Some p'
                    /\ chan k p' = chan k p
                    /\ forall j, 0 <= j <= 2 -> j <> k -> chan j p' = 0.
Proof.
  intros HF Hk.
  assert (h !! fresh (dom h) = None) as Hnew
    by (apply not_elem_of_dom, is_fresh).
  assert (0 <= k <= 2) as Hrange
    by (destruct (channel_of_cases _ _ Hk) as [[_ ->] | [[_ ->] | [_ ->]]]; lia).
  exists (fresh (dom h)), (assign_channel k F (zeros_like F)).
  split; [by apply apply_filter_run|].
  split.
  { unfold processed_frame. simpl.
    destruct (channel_of_cases _ _ Hk) as [[-> _] | [[-> _] | [-> _]]];
      simpl; by apply apply_filter_run. }
  split; [done|].
  split; [rewrite lookup_insert_ne; [done | congruence]|].
  split; [intros l Hl; by rewrite lookup_insert_ne|].
  split.
  { rewrite <- (length_fmap length), assign_channel_zeros_widths.
    by rewrite length_fmap. }
  split; [apply assign_channel_zeros_widths|].
  intros r c p Hp.
  exists (set_chan k (chan k p) (Pixel 0 0 0)).
  split; [by apply assign_channel_zeros_pixel|].
  by apply set_chan_isolates.
Qed.

Lemma apply_filter_isolates_channel_witness :
  exists out F',
    apply_filter 1%positive (Some "green"%string)
      {[ 1%positive := [[Pixel 10 20 30; Pixel 40 50 60]] ]}
    = Ok (out, <[out := F']> {[ 1%positive := [[Pixel 10 20 30; Pixel 40 50 60]] ]})
    /\ pixel_at F' 0 1 = Some (Pixel 0 50 0).
Proof.
  assert (({[ 1%positive := [[Pixel 10 20 30; Pixel 40 50 60]] ]} : heap)
            !! 1%positive = Some [[Pixel 10 20 30; Pixel 40 50 60]]) as Hin
    by (vm_compute; reflexivity).
  assert (channel_of "green" = Some 1) as Hgreen by (vm_compute; reflexivity).
  destruct (apply_filter_isolates_channel (init 0 0) _ _ _ _ _ Hin Hgreen)
    as (out & F' & Hrun & _ & _ & _ & _ & _ & _ & Hpx).
  exists out, F'. split; [exact Hrun|].
  destruct (Hpx 0%nat 1%nat (Pixel 40 50 60) eq_refl) as (p' & Hp' & H1 & H02).
  rewrite Hp'. f_equal.
  pose proof (H02 0 ltac:(lia) ltac:(lia)) as H0.
  pose proof (H02 2 ltac:(lia) ltac:(lia)) as H2.
  destruct p' as [a b c]. unfold chan in *. simpl in *. congruence.
Defined.

(** C3: with no filter selected, the frame the processed panel shows is a
    copy of the camera frame: a new array object holding exactly [F], the
    camera frame itself untouched. *)
Theorem processed_frame_None_is_copy (self : CameraStreamUI) (h : heap)
    (frame : loc) (F : ndarray) :
  h !! frame = Some F ->
  selected_filter self = None ->
  exists out,
    processed_frame self frame h = Ok (out, <[out := F]> h)
    /\ h !! out = None
    /\ <[out := F]> h !! out = Some F
    /\ <[out := F]> h !! frame = Some F.
Proof.
  intros HF Hsel.
  assert (h !! fresh (dom h) = None) as Hnew
    by (apply not_elem_of_dom, is_fresh).
  exists (fresh (dom h)).
  unfold processed_frame, ndarray_copy, bind, load, alloc.
  rewrite Hsel. simpl. rewrite HF.
  split; [done|]. split; [done|].
  split; [apply lookup_insert_eq|].
  rewrite lookup_insert_ne; [done | congruence].
Qed.

Lemma processed_frame_None_is_copy_witness :
  exists out,
    processed_frame (init 0 0) 1%positive {[ 1%positive := [[Pixel 10 20 30]] ]}
    = Ok (out, <[out := [[Pixel 10 20 30]]]> {[ 1%positive := [[Pixel 10 20 30]] ]}).
Proof.
  assert (({[ 1%positive := [[Pixel 10 20 30]] ]} : heap) !! 1%positive
          = Some [[Pixel 10 20 30]]) as Hin by (vm_compute; reflexivity).
  destruct (processed_frame_None_is_copy (init 0 0) _ _ _ Hin eq_refl)
    as (out & Hrun & _).
  exists out. exact Hrun.
Defined.

(** ** The frame rate estimate *)

(** C9: after two ticks the estimate is the reciprocal of the clock
    difference between them, whatever the object held before, and the
    stored timestamp is the latest one. When that difference is 1.0 the
    estimate is 1.0, and when it is 0.1 the estimate is 10.0. *)
Theorem update_fps_reciprocal (self : CameraStreamUI) (t0 t1 d : float) :
  is_zero (t0 - prev_time self) = false ->
  (t1 - t0)%float = d ->
  is_zero d = false ->
  exists s0 s1,
    update_fps self t0 = Ok s0
    /\ update_fps s0 t1 = Ok s1
    /\ fps s1 = (1 / d)%float
    /\ prev_time s1 = t1
    /\ selected_filter s1 = selected_filter self
    /\ (d = 1%float -> fps s1 = 1%float)
    /\ (d = 0.1%float -> fps s1 = 10%float).
Proof.
  intros H0 Hd Hnz.
  unfold update_fps, Py.fdiv. rewrite H0. simpl.
  eexists. eexists. split; [reflexivity|]. simpl.
  rewrite Hd, Hnz. simpl.
  split; [reflexivity|]. simpl.
  repeat split; intros ->; reflexivity.
Qed.

Lemma update_fps_reciprocal_witness :
  exists s0 s1,
    update_fps (init 0 0) 1 = Ok s0 /\ update_fps s0 2 = Ok s1
    /\ fps s1 = 1%float.
Proof.
  destruct (update_fps_reciprocal (init 0 0) 1 2 1 eq_refl eq_refl eq_refl)
    as (s0 & s1 & H0 & H1 & _ & _ & _ & Hone & _).
  exists s0, s1. repeat split; [exact H0 | exact H1 | exact (Hone eq_refl)].
Defined.

(** The same on clock readings of the size [time.time()] returns: the
    difference of the two floats is then only near 0.1. *)
Example update_fps_epoch :
  (try s <- update_fps (init 0 1700000000.25) 1700000001.25; Ok (fps s))
  = Ok 1%float
  /\ (try s <- update_fps (init 0 100) 100.1;
      Ok (close_to 1e-9 (fps s) 10)) = Ok true
  /\ (try s <- update_fps (init 0 1700000000) 1700000000.1;
      Ok (close_to 1e-5 (fps s) 10, close_to 1e-9 (fps s) 10))
     = Ok (true, false).
Proof. repeat split; reflexivity. Qed.

(** A tick at the very clock reading of the previous one divides by zero. *)
Example update_fps_same_instant :
  update_fps (init 0 5) 5 = Raise ZeroDivisionError.
Proof. reflexivity. Qed.

(** ** Hit testing against the drawn header *)

Lemma get_button_clicked_names (self : CameraStreamUI) (x y panel_width : Z) :
  valid_filter (get_button_clicked self x y panel_width).
Proof.
  unfold get_button_clicked, enumerate, valid_filter. simpl.
  repeat match goal with |- context [if ?b then _ else _] => destruct b end;
    auto.
Qed.

(** Where the header is drawn at the origin with the height the hit test
    assumes for its buttons, every point of the header hits the button
    whose [btn_rect] holds it. *)
Lemma hit_test_agrees_when_heights_agree (self : CameraStreamUI)
    (w h px py : Z) :
  (h - button_height self) / 2 = (header_height self - button_height self) / 2 ->
  0 <= px < w -> 0 <= py < h ->
  get_button_clicked self px py w = drawn_button self 0 0 w h px py.
Proof.
  intros Hy Hx Hpy.
  unfold get_button_clicked, drawn_button, header_buttons, enumerate,
    in_btn_rect.
  rewrite <- Hy. simpl.
  replace (px - 0) with px by lia. replace (py - 0) with py by lia.
  assert ((0 <=? px) && (px <? 0 + w) && (0 <=? py) && (py <? 0 + h) = true)
    as -> by lia.
  rewrite !filter_cons, filter_nil. simpl.
  repeat case_decide;
    repeat match goal with
           | H : ?b = true |- context [if ?b then _ else _] => rewrite H
           | H : ?b <> true |- context [if ?b then _ else _] =>
               apply not_true_is_false in H; rewrite H
           end; reflexivity.
Qed.

(** The horizontal extent of the buttons is the same in both routines, at
    every width. *)
Lemma hit_test_same_columns (self : CameraStreamUI) (w h : Z) :
  (fun b => let '(x_btn, _, bw, _) := snd b in (x_btn, bw))
    <$> header_buttons self w h
  = (fun i => ((w - (3 * button_width self + 2 * button_margin self)) / 2
               + Z.of_nat i * (button_width self + button_margin self),
               button_width self)) <$> [0; 1; 2]%nat.
Proof. reflexivity. Qed.

(** On a layout 1920 wide a click at (0, 0) is left of the first button,
    and a click above the header band (a negative row) hits nothing. *)
Example click_outside_buttons :
  get_button_clicked (init 0 0) 0 0 1920 = None
  /\ get_button_clicked (init 0 0) 960 (-1) 1920 = None.
Proof. split; reflexivity. Qed.

(** On a screen of 1920 by 1080 the centre of the drawn Green button
    registers. *)
Example click_green_centre_1080 :
  compute_layout 1920 1080
  = Ok {| header_rect := (0, 0, 1920, 108);
          footer_rect := (0, 972, 1920, 108);
          orig_rect := (0, 108, 960, 864);
          proc_rect := (960, 108, 960, 864) |}
  /\ header_buttons (init 0 0) 1920 108
     = [("Red", (630, 29, 200, 50)); ("Green", (860, 29, 200, 50));
        ("Blue", (1090, 29, 200, 50))]%string
  /\ get_button_clicked (init 0 0) (860 + 100) (29 + 25) 1920 = Some "green"%string.
Proof. repeat split; vm_compute; reflexivity. Qed.

(** C1: on a screen of 2560 by 1440 the header is drawn 144 high and the
    Green button at (1180, 47), 200 by 50. The exact centre of that button,
    (1280, 72), is painted as Green, yet the hit test answers no-match and
    a pointer-down there leaves the selection unset. On a screen of 1920
    by 1080 the same happens at (960, 75), in the lower part of the drawn
    Green button. *)
Theorem hit_test_misses_drawn_button :
  compute_layout 2560 1440
  = Ok {| header_rect := (0, 0, 2560, 144);
          footer_rect := (0, 1296, 2560, 144);
          orig_rect := (0, 144, 1280, 1152);
          proc_rect := (1280, 144, 1280, 1152) |}
  /\ header_buttons (init 0 0) 2560 144
     = [("Red", (950, 47, 200, 50)); ("Green", (1180, 47, 200, 50));
        ("Blue", (1410, 47, 200, 50))]%string
  /\ button_body (1180, 47, 200, 50) (1180 + 200 / 2) (47 + 50 / 2) = true
  /\ drawn_button (init 0 0) 0 0 2560 144 1280 72 = Some "green"%string
  /\ get_button_clicked (init 0 0) 1280 72 2560 = None
  /\ selected_filter
       (mouse_callback (init 0 0) EVENT_LBUTTONDOWN 1280 72 0
          (Some {[ "panel_width"%string := 2560 ]})) = None
  /\ drawn_button (init 0 0) 0 0 1920 108 960 75 = Some "green"%string
  /\ button_body (860, 29, 200, 50) 960 75 = true
  /\ get_button_clicked (init 0 0) 960 75 1920 = None
  /\ selected_filter
       (mouse_callback (init 0 0) EVENT_LBUTTONDOWN 960 75 0
          (Some {[ "panel_width"%string := 1920 ]})) = None.
Proof. repeat split; vm_compute; reflexivity. Qed.

(** ** The selection invariant *)

Lemma mouse_callback_valid (self : CameraStreamUI) (event x y flags : Z)
    (param : option (gmap string Z)) :
  valid_filter (selected_filter self) ->
  valid_filter (selected_filter (mouse_callback self event x y flags param)).
Proof.
  intros Hv. unfold mouse_callback.
  destruct ((event =? EVENT_LBUTTONDOWN) && (y <? header_height self));
    [|exact Hv].
  match goal with |- context [Py.truthy ?c] => destruct (Py.truthy c) end;
    [|exact Hv].
  simpl. apply get_button_clicked_names.
Qed.

Lemma update_fps_keeps_selection (self self' : CameraStreamUI) (t : float) :
  update_fps self t = Ok self' -> selected_filter self' = selected_filter self.
Proof.
  unfold update_fps. destruct (Py.fdiv _ _); simpl; [|done].
  by intros [= <-].
Qed.

Section Selection.

Variable interp : ndarray -> Z -> Z -> Z -> Z -> pixel.
Variable ink :
  CameraStreamUI -> list (string * rect) -> Z -> Z -> Z -> Z -> pixel -> pixel.

Lemma pointer_events_valid (screen_w : Z) (ps : list pointer)
    (self : CameraStreamUI) :
  valid_filter (selected_filter self) ->
  valid_filter
    (selected_filter
       (foldl (fun s p =>
                 mouse_callback s (p_event p) (p_x p) (p_y p) (p_flags p)
                   (Some {[ "panel_width"%string := screen_w ]}))
              self ps)).
Proof.
  revert self. induction ps as [|p ps IH]; intros self Hv; simpl; [exact Hv|].
  apply IH. by apply mouse_callback_valid.
Qed.

Lemma main_loop_valid (screen_w screen_h : Z) (l : layout) (todo : list tick) :
  forall (self : CameraStreamUI) (h : heap),
    valid_filter (selected_filter self) ->
    valid_filter
      (selected_filter
         (snd (fst (main_loop interp ink self screen_w screen_h l h todo)))).
Proof.
  induction todo as [|t rest IH]; intros self h Hv; simpl; [exact Hv|].
  destruct (tk_read t) as [frame|]; [|exact Hv].
  destruct (update_fps self (tk_time t)) as [self1|e] eqn:Hfps; [|exact Hv].
  assert (valid_filter (selected_filter self1)) as Hv1
    by (by rewrite (update_fps_keeps_selection _ _ _ Hfps)).
  destruct (compose interp ink self1 frame screen_w screen_h l h)
    as [[canvas h1]|e]; [|exact Hv1].
  pose proof (pointer_events_valid screen_w (tk_pointer t) self1 Hv1) as Hv2.
  destruct (Z.land (tk_key t) 255 =? 113); [exact Hv2|].
  specialize (IH _ h1 Hv2).
  destruct (main_loop interp ink _ screen_w screen_h l h1 rest) as [[o s] evs].
  exact IH.
Qed.

Lemma run_valid (self : CameraStreamUI) (w : world) :
  valid_filter (selected_filter self) ->
  valid_filter (selected_filter (snd (fst (run interp ink self w)))).
Proof.
  intros Hv. unfold run.
  destruct (cap_isOpened w); simpl; [|exact Hv].
  destruct (first_read w) as [frame|]; [|exact Hv].
  destruct (Py.truediv _ _); [|exact Hv].
  destruct (screen_resolution w) as [screen_w screen_h].
  destruct (compute_layout screen_w screen_h) as [l|e]; [|exact Hv].
  pose proof (main_loop_valid screen_w screen_h l (ticks w) self ∅ Hv) as H.
  destruct (main_loop interp ink self screen_w screen_h l ∅ (ticks w))
    as [[o s] evs].
  destruct o; exact H.
Qed.

Lemma after_call_valid (self : CameraStreamUI) (c : call) :
  valid_filter (selected_filter self) ->
  valid_filter (selected_filter (after_call interp ink self c)).
Proof.
  intros Hv. destruct c as [t|event x y flags param|w]; simpl.
  - destruct (update_fps self t) eqn:Hfps; [|exact Hv].
    by rewrite (update_fps_keeps_selection _ _ _ Hfps).
  - by apply mouse_callback_valid.
  - by apply run_valid.
Qed.

(** C10: the hit test answers only red, green, blue or no-match; the mouse
    callback assigns the selection only from a hit; and after [__init__]
    followed by any sequence of calls of [update_fps], [mouse_callback] and
    [run], the selection is [None], red, green or blue. *)
Theorem selected_filter_invariant :
  (forall self x y panel_width,
      valid_filter (get_button_clicked self x y panel_width))
  /\ (forall self event x y flags param,
        selected_filter (mouse_callback self event x y flags param)
        = selected_filter self
        \/ (selected_filter (mouse_callback self event x y flags param)
            <> None
            /\ exists panel_width,
                selected_filter (mouse_callback self event x y flags param)
                = get_button_clicked self x y panel_width))
  /\ (forall index now, selected_filter (init index now) = None)
  /\ (forall index now (calls : list call),
        valid_filter
          (selected_filter
             (foldl (after_call interp ink) (init index now) calls))).
Proof.
  split; [exact get_button_clicked_names|].
  split.
  { intros self event x y flags param. unfold mouse_callback.
    destruct ((event =? EVENT_LBUTTONDOWN) && (y <? header_height self));
      [|by left].
    match goal with |- context [Py.truthy ?c] =>
      destruct (Py.truthy c) eqn:Htruthy end; [|by left].
    right. simpl. split; [|eauto].
    intros Hnone. rewrite Hnone in Htruthy. discriminate. }
  split; [reflexivity|].
  intros index now calls.
  assert (valid_filter (selected_filter (init index now))) as Hinit
    by (by left).
  revert Hinit. generalize (init index now).
  induction calls as [|c calls IH]; intros self Hv; simpl; [exact Hv|].
  apply IH. by apply after_call_valid.
Qed.

End Selection.

(** ** The layout *)

(** Whatever height the header and the footer get, the three bands stack
    to the screen height and the two panels have one size. *)
Lemma compute_layout_shape (screen_w screen_h : Z) (l : layout) :
  compute_layout screen_w screen_h = Ok l ->
  exists hh fh,
    Py.int_mul screen_h 0.10%float = Ok hh
    /\ Py.int_mul screen_h 0.10%float = Ok fh
    /\ l = {| header_rect := (0, 0, screen_w, hh);
              footer_rect := (0, screen_h - fh, screen_w, fh);
              orig_rect := (0, hh, screen_w / 2, screen_h - hh - fh);
              proc_rect := (screen_w / 2, hh, screen_w / 2, screen_h - hh - fh) |}.
Proof.
  unfold compute_layout. intros H.
  destruct (Py.int_mul screen_h 0.10%float) as [hh|e] eqn:Hh; simpl in H;
    [|discriminate].
  injection H as <-. by exists hh, hh.
Qed.

(** On the usual screen sizes the header and the footer are a tenth of the
    height each, rounded down. *)
Example compute_layout_common_screens :
  Forall (fun '(w, h) =>
            compute_layout w h
            = Ok {| header_rect := (0, 0, w, h / 10);
                    footer_rect := (0, h - h / 10, w, h / 10);
                    orig_rect := (0, h / 10, w / 2, h - h / 10 - h / 10);
                    proc_rect := (w / 2, h / 10, w / 2, h - h / 10 - h / 10) |})
         [(1280, 720); (1366, 768); (1440, 900); (1600, 900); (1920, 1080);
          (1920, 1200); (2560, 1440); (3840, 2160)].
Proof. repeat constructor; vm_compute; reflexivity. Qed.

(** On a screen 1365 wide the two panels are 682 wide each: together they
    are one column short of the screen. *)
Lemma layout_odd_width_counterexample :
  exists l, compute_layout 1365 768 = Ok l
            /\ rect_h (header_rect l) + rect_h (proc_rect l)
               + rect_h (footer_rect l) = 768
            /\ rect_w (orig_rect l) + rect_w (proc_rect l) <> 1365.
Proof.
  eexists. split; [vm_compute; reflexivity|]. split; [reflexivity|]. simpl. lia.
Qed.

(** C4, amended: the heights of the header, the stream panels and the
    footer add up to the screen height and the three bands follow one
    another from row 0; the header and the footer are as wide as the
    screen; the two panels have one size, lie side by side from column 0,
    and their widths add up to the screen width when it is even and to one
    less when it is odd. No cell lies in two of the header, the panels and
    the footer bands next to it, and every cell of the screen left of
    column [2 * (screen_w / 2)] lies in one of the four rectangles. *)
Theorem layout_partition (screen_w screen_h : Z) (l : layout) :
  compute_layout screen_w screen_h = Ok l ->
  rect_h (header_rect l) + rect_h (proc_rect l) + rect_h (footer_rect l)
  = screen_h
  /\ rect_h (orig_rect l) = rect_h (proc_rect l)
  /\ rect_w (orig_rect l) = rect_w (proc_rect l)
  /\ rect_w (header_rect l) = screen_w
  /\ rect_w (footer_rect l) = screen_w
  /\ rect_w (orig_rect l) + rect_w (proc_rect l) = screen_w - screen_w mod 2
  /\ (forall px py,
        ~ (covers (header_rect l) px py /\ covers (orig_rect l) px py)
        /\ ~ (covers (header_rect l) px py /\ covers (proc_rect l) px py)
        /\ ~ (covers (orig_rect l) px py /\ covers (proc_rect l) px py)
        /\ ~ (covers (orig_rect l) px py /\ covers (footer_rect l) px py)
        /\ ~ (covers (proc_rect l) px py /\ covers (footer_rect l) px py)
        /\ (0 <= rect_h (proc_rect l) ->
            ~ (covers (header_rect l) px py /\ covers (footer_rect l) px py)))
  /\ (forall px py,
        0 <= px < screen_w - screen_w mod 2 -> 0 <= py < screen_h ->
        covers (header_rect l) px py \/ covers (orig_rect l) px py
        \/ covers (proc_rect l) px py \/ covers (footer_rect l) px py).
Proof.
  intros Hl.
  destruct (compute_layout_shape _ _ _ Hl) as (hh & fh & _ & _ & ->).
  pose proof (Z.div_mod screen_w 2 ltac:(lia)) as Hdiv.
  pose proof (Z.mod_pos_bound screen_w 2 ltac:(lia)) as Hmod.
  unfold covers, rect_h, rect_w. simpl.
  repeat split; lia.
Qed.

Lemma layout_partition_witness :
  exists l,
    compute_layout 1920 1080 = Ok l
    /\ rect_h (header_rect l) + rect_h (proc_rect l) + rect_h (footer_rect l)
       = 1080
    /\ rect_w (orig_rect l) + rect_w (proc_rect l) = 1920.
Proof.
  eexists. split; [vm_compute; reflexivity|].
  pose proof (layout_partition 1920 1080 _ ltac:(vm_compute; reflexivity))
    as (Hh & _ & _ & _ & _ & Hw & _).
  split; [exact Hh | exact Hw].
Defined.

(** ** Writing into the canvas *)

Lemma nrows_widths (a : ndarray) : nrows a = Z.of_nat (length (widths a)).
Proof. unfold nrows, widths. by rewrite length_fmap. Qed.

Lemma ncols_widths (a : ndarray) :
  ncols a = Z.of_nat (default 0%nat (head (widths a))).
Proof. by destruct a. Qed.

Lemma rectangular_widths (a : ndarray) :
  rectangular a <-> Forall (fun n => Z.of_nat n = ncols a) (widths a).
Proof. unfold rectangular, widths. by rewrite Forall_fmap. Qed.

Lemma same_widths (a b : ndarray) :
  widths a = widths b ->
  nrows a = nrows b /\ ncols a = ncols b /\ (rectangular b -> rectangular a).
Proof.
  intros Hw.
  assert (ncols a = ncols b) as Hc by (by rewrite !ncols_widths, Hw).
  split; [by rewrite !nrows_widths, Hw|]. split; [exact Hc|].
  rewrite !rectangular_widths, Hw, Hc. auto.
Qed.

Lemma rectangular_row (a : ndarray) (r : nat) (row : list pixel) :
  rectangular a -> a !! r = Some row -> Z.of_nat (length row) = ncols a.
Proof.
  unfold rectangular. rewrite Forall_lookup. intros Hrect Hrow.
  exact (Hrect r row Hrow).
Qed.

Lemma setitem_ok (a : ndarray) (r c : Z) (v : pixel) :
  rectangular a -> 0 <= r < nrows a -> 0 <= c < ncols a ->
  exists a', setitem a r c v = Ok a' /\ widths a' = widths a.
Proof.
  intros Hrect Hr Hc. unfold setitem, nrows in *.
  assert ((0 <=? r) && (0 <=? c) = true) as -> by lia.
  destruct (lookup_lt_is_Some_2 a (Z.to_nat r) ltac:(lia)) as [row Hrow].
  rewrite Hrow.
  pose proof (rectangular_row _ _ _ Hrect Hrow) as Hlen.
  assert ((Z.to_nat c <? length row)%nat = true) as ->
    by (apply Nat.ltb_lt; lia).
  eexists. split; [reflexivity|].
  unfold widths. rewrite list_fmap_insert, length_insert.
  apply list_insert_id. by rewrite list_lookup_fmap, Hrow.
Qed.

Lemma getitem_ok (a : ndarray) (r c : Z) :
  rectangular a -> 0 <= r < nrows a -> 0 <= c < ncols a ->
  exists p, getitem a r c = Ok p.
Proof.
  intros Hrect Hr Hc. unfold getitem, pixel_at, nrows in *.
  assert ((0 <=? r) && (0 <=? c) = true) as -> by lia.
  destruct (lookup_lt_is_Some_2 a (Z.to_nat r) ltac:(lia)) as [row Hrow].
  rewrite Hrow. simpl.
  pose proof (rectangular_row _ _ _ Hrect Hrow) as Hlen.
  destruct (lookup_lt_is_Some_2 row (Z.to_nat c) ltac:(lia)) as [p Hp].
  rewrite Hp. eauto.
Qed.

Lemma write_cells_ok (v : ndarray) (ys xs : Z) (todo : list (Z * Z)) :
  rectangular v ->
  forall a, rectangular a ->
    Forall (cell_in_range a v ys xs) todo ->
    exists a', write_cells a v ys xs todo = Ok a' /\ widths a' = widths a.
Proof.
  intros Hv. induction todo as [|[r c] rest IH]; intros a Ha Hall; simpl.
  { eauto. }
  apply Forall_cons in Hall as [(Hr & Hc & Hvr & Hvc) Hrest]. simpl in *.
  destruct (getitem_ok v _ _ Hv Hvr Hvc) as [p ->]. simpl.
  destruct (setitem_ok a r c p Ha Hr Hc) as (a1 & -> & Hw1). simpl.
  destruct (same_widths _ _ Hw1) as (Hn & Hm & Hrect1).
  destruct (IH a1 (Hrect1 Ha)) as (a' & Hrun & Hw').
  { eapply Forall_impl; [exact Hrest|].
    intros [r' c']. unfold cell_in_range. rewrite Hn, Hm. auto. }
  exists a'. split; [exact Hrun | congruence].
Qed.

Lemma slice_indices_bounds (start stop len : Z) :
  0 <= len ->
  0 <= fst (slice_indices start stop len) <= len
  /\ 0 <= snd (slice_indices start stop len) <= len.
Proof.
  intros Hlen. unfold slice_indices. cbn.
  destruct (Z.ltb_spec start 0), (Z.ltb_spec stop 0); lia.
Qed.

Lemma cells_Forall (P : Z * Z -> Prop) (ys th xs tw : Z) :
  (forall r c, ys <= r < ys + th -> xs <= c < xs + tw -> P (r, c)) ->
  Forall P (cells ys th xs tw).
Proof.
  intros HP. apply Forall_forall. intros [r c] Hin.
  apply list_elem_of_In, in_flat_map in Hin as (r' & Hr & Hc).
  apply list_elem_of_In in Hr, Hc.
  apply list_elem_of_fmap in Hc as (c' & [= -> ->] & Hc).
  apply elem_of_seqZ in Hr, Hc. by apply HP.
Qed.

(** A slice assignment never leaves the buffer of either array: it raises
    [ValueError], or it succeeds and the array keeps its shape. *)
Lemma slice_assign_safe (a v : ndarray) (y0 y1 x0 x1 : Z) :
  rectangular a -> rectangular v ->
  slice_assign a y0 y1 x0 x1 v = Raise ValueError
  \/ exists a', slice_assign a y0 y1 x0 x1 v = Ok a' /\ widths a' = widths a.
Proof.
  intros Ha Hv. unfold slice_assign.
  pose proof (slice_indices_bounds y0 y1 (nrows a) ltac:(unfold nrows; lia))
    as Hy.
  pose proof (slice_indices_bounds x0 x1 (ncols a) ltac:(unfold ncols; lia))
    as Hx.
  destruct (slice_indices y0 y1 (nrows a)) as [ys ye].
  destruct (slice_indices x0 x1 (ncols a)) as [xs xe]. simpl in Hy, Hx.
  destruct (broadcastable (nrows v) (Z.max 0 (ye - ys))
            && broadcastable (ncols v) (Z.max 0 (xe - xs))) eqn:Hb;
    [right | by left].
  apply andb_true_iff in Hb as [Hbr Hbc]. unfold broadcastable in *.
  apply write_cells_ok; [exact Hv | exact Ha |].
  apply cells_Forall. intros r c Hr Hc. unfold cell_in_range. simpl.
  repeat split; try lia.
  - destruct (nrows v =? 1) eqn:E; lia.
  - destruct (nrows v =? 1) eqn:E; lia.
  - destruct (ncols v =? 1) eqn:E; lia.
  - destruct (ncols v =? 1) eqn:E; lia.
Qed.

Lemma tabulate_shape (rows cols : Z) (f : Z -> Z -> pixel) :
  0 < rows -> 0 <= cols ->
  nrows (tabulate rows cols f) = rows
  /\ ncols (tabulate rows cols f) = cols
  /\ rectangular (tabulate rows cols f).
Proof.
  intros Hr Hc.
  assert (ncols (tabulate rows cols f) = cols) as Hcols.
  { unfold ncols, tabulate. rewrite (seqZ_cons 0 rows) by lia.
    rewrite fmap_cons. simpl. rewrite length_fmap, length_seqZ. lia. }
  split; [|split; [exact Hcols|]].
  - unfold nrows, tabulate. rewrite length_fmap, length_seqZ. lia.
  - unfold rectangular. rewrite Hcols. unfold tabulate.
    apply Forall_fmap, Forall_forall. intros r _. simpl.
    rewrite length_fmap, length_seqZ. lia.
Qed.

(** An image more than one pixel wide and high that does not lie inside the
    canvas is refused: the write is checked, not clipped. (An image that
    ends left of column 0 or above row 0 is taken from the far edge
    instead, as negative slice bounds are.) *)
Lemma slice_assign_exceeding (a v : ndarray) (y1 x1 : Z) :
  1 < nrows v -> 1 < ncols v ->
  0 <= y1 + nrows v -> 0 <= x1 + ncols v ->
  y1 < 0 \/ x1 < 0 \/ nrows a < y1 + nrows v \/ ncols a < x1 + ncols v ->
  slice_assign a y1 (y1 + nrows v) x1 (x1 + ncols v) v = Raise ValueError.
Proof.
  intros Hh Hw Hy Hx Hout.
  assert (0 <= nrows a /\ 0 <= ncols a) as [Ha Hb]
    by (unfold nrows, ncols; lia).
  unfold slice_assign, slice_indices, broadcastable. cbn.
  match goal with |- (if ?b then _ else _) = _ =>
    assert (b = false) as ->; [|reflexivity] end.
  destruct (Z.ltb_spec y1 0), (Z.ltb_spec (y1 + nrows v) 0),
    (Z.ltb_spec x1 0), (Z.ltb_spec (x1 + ncols v) 0); lia.
Qed.

(** ** What a successful write leaves on the canvas *)

Lemma setitem_lookup (a a' : ndarray) (r c : Z) (v : pixel) :
  setitem a r c v = Ok a' ->
  0 <= r /\ 0 <= c
  /\ pixel_at a' (Z.to_nat r) (Z.to_nat c) = Some v
  /\ forall i j, (i, j) <> (Z.to_nat r, Z.to_nat c) ->
       pixel_at a' i j = pixel_at a i j.
Proof.
  unfold setitem, pixel_at.
  destruct ((0 <=? r) && (0 <=? c)) eqn:Hpos; [|discriminate].
  destruct (a !! Z.to_nat r) as [row|] eqn:Hrow; [|discriminate].
  destruct (Z.to_nat c <? length row)%nat eqn:Hc; [|discriminate].
  intros [= <-]. apply Nat.ltb_lt in Hc.
  pose proof (lookup_lt_Some _ _ _ Hrow) as Hr.
  split; [lia|]. split; [lia|]. split.
  - rewrite list_lookup_insert_eq by done. simpl.
    by rewrite list_lookup_insert_eq.
  - intros i j Hne. destruct (decide (i = Z.to_nat r)) as [->|Hi].
    + rewrite list_lookup_insert_eq by done. rewrite Hrow. simpl.
      rewrite list_lookup_insert_ne; [done | congruence].
    + by rewrite list_lookup_insert_ne.
Qed.

Lemma write_cells_lookup (v : ndarray) (ys xs : Z) (todo : list (Z * Z)) :
  forall a a', write_cells a v ys xs todo = Ok a' ->
  forall r c, 0 <= r -> 0 <= c ->
    ((r, c) ∈ todo ->
     exists p,
       getitem v (if nrows v =? 1 then 0 else r - ys)
                 (if ncols v =? 1 then 0 else c - xs) = Ok p
       /\ pixel_at a' (Z.to_nat r) (Z.to_nat c) = Some p)
    /\ ((r, c) ∉ todo ->
        pixel_at a' (Z.to_nat r) (Z.to_nat c)
        = pixel_at a (Z.to_nat r) (Z.to_nat c)).
Proof.
  induction todo as [|[r0 c0] rest IH]; intros a a' Hrun r c Hr Hc; simpl in Hrun.
  { injection Hrun as <-. split; [|done]. intros Hin. by apply elem_of_nil in Hin. }
  destruct (getitem v _ _) as [p0|] eqn:Hget; [|discriminate]. simpl in Hrun.
  destruct (setitem a r0 c0 p0) as [a1|] eqn:Hset; [|discriminate].
  simpl in Hrun.
  destruct (setitem_lookup _ _ _ _ _ Hset) as (Hr0 & Hc0 & Hnew & Hold).
  destruct (IH a1 a' Hrun r c Hr Hc) as [Hin Hout].
  split.
  - intros Hmem. destruct (decide ((r, c) ∈ rest)) as [Hrest|Hrest]; [auto|].
    apply elem_of_cons in Hmem as [[= -> ->]|Hmem]; [|done].
    exists p0. split; [exact Hget|]. by rewrite Hout.
  - intros Hmem. apply not_elem_of_cons in Hmem as [Hne Hrest].
    rewrite Hout by done. apply Hold.
    intros [= E1 E2]. apply Hne. f_equal; lia.
Qed.

Lemma elem_of_cells (ys th xs tw r c : Z) :
  (r, c) ∈ cells ys th xs tw <-> ys <= r < ys + th /\ xs <= c < xs + tw.
Proof.
  unfold cells. rewrite list_elem_of_In, in_flat_map. split.
  - intros (r' & Hr & Hc). apply list_elem_of_In in Hr, Hc.
    apply list_elem_of_fmap in Hc as (c' & [= -> ->] & Hc).
    by apply elem_of_seqZ in Hr, Hc.
  - intros [Hr Hc]. exists r. split; apply list_elem_of_In.
    + by apply elem_of_seqZ.
    + apply list_elem_of_fmap. exists c. split; [done|]. by apply elem_of_seqZ.
Qed.

Lemma tabulate_pixel (rows cols : Z) (f : Z -> Z -> pixel) (r c : Z) :
  0 <= r < rows -> 0 <= c < cols ->
  getitem (tabulate rows cols f) r c = Ok (f r c).
Proof.
  intros Hr Hc. unfold getitem, pixel_at, tabulate.
  assert ((0 <=? r) && (0 <=? c) = true) as -> by lia.
  rewrite list_lookup_fmap, (lookup_seqZ_lt 0 rows) by lia. simpl.
  rewrite list_lookup_fmap, (lookup_seqZ_lt 0 cols) by lia. simpl.
  do 2 f_equal; lia.
Qed.

(** An image written inside the canvas at a non-negative offset occupies
    exactly its rectangle there, and the rest of the canvas is as it was. *)
Lemma slice_assign_pixels (a a' : ndarray) (f : Z -> Z -> pixel)
    (y1 x1 dh dw : Z) :
  0 < dh -> 0 < dw -> 0 <= y1 -> 0 <= x1 ->
  y1 + dh <= nrows a -> x1 + dw <= ncols a ->
  slice_assign a y1 (y1 + dh) x1 (x1 + dw) (tabulate dh dw f) = Ok a' ->
  forall r c, 0 <= r -> 0 <= c ->
    pixel_at a' (Z.to_nat r) (Z.to_nat c)
    = if decide (y1 <= r < y1 + dh /\ x1 <= c < x1 + dw)
      then Some (f (r - y1) (c - x1))
      else pixel_at a (Z.to_nat r) (Z.to_nat c).
Proof.
  intros Hdh Hdw Hy Hx Hfy Hfx.
  destruct (tabulate_shape dh dw f Hdh ltac:(lia)) as (Hn & Hm & _).
  unfold slice_assign, slice_indices. cbn. rewrite Hn, Hm.
  assert ((y1 <? 0) = false) as -> by lia.
  assert ((y1 + dh <? 0) = false) as -> by lia.
  assert ((x1 <? 0) = false) as -> by lia.
  assert ((x1 + dw <? 0) = false) as -> by lia.
  replace (Z.min y1 (nrows a)) with y1 by lia.
  replace (Z.min (y1 + dh) (nrows a)) with (y1 + dh) by lia.
  replace (Z.min x1 (ncols a)) with x1 by lia.
  replace (Z.min (x1 + dw) (ncols a)) with (x1 + dw) by lia.
  replace (Z.max 0 (y1 + dh - y1)) with dh by lia.
  replace (Z.max 0 (x1 + dw - x1)) with dw by lia.
  unfold broadcastable. rewrite !Z.eqb_refl. simpl.
  intros Hrun r c Hr Hc.
  destruct (write_cells_lookup _ _ _ _ _ _ Hrun r c Hr Hc) as [Hin Hout].
  rewrite Hn, Hm in Hin.
  case_decide as Hreg.
  - destruct (Hin ltac:(by apply elem_of_cells)) as (p & Hget & ->).
    rewrite tabulate_pixel in Hget.
    + injection Hget as <-. do 2 f_equal.
      * destruct (dh =? 1) eqn:E; lia.
      * destruct (dw =? 1) eqn:E; lia.
    + destruct (dh =? 1) eqn:E; lia.
    + destruct (dw =? 1) eqn:E; lia.
  - apply Hout. by rewrite elem_of_cells.
Qed.

(** ** Placing a stream *)

Lemma rbind_no_IndexError {A B} (m : result A) (k : A -> result B) :
  m <> Raise IndexError -> (forall a, k a <> Raise IndexError) ->
  rbind m k <> Raise IndexError.
Proof.
  intros Hm Hk. destruct m as [a|e]; simpl; [apply Hk|].
  intros [= ->]. by apply Hm.
Qed.

Lemma float_of_int_no_IndexError (z : Z) :
  Py.float_of_int z <> Raise IndexError.
Proof. unfold Py.float_of_int. by destruct (is_infinity _). Qed.

Lemma int_of_float_no_IndexError (f : float) :
  Py.int_of_float f <> Raise IndexError.
Proof. unfold Py.int_of_float. by destruct (Prim2SF f). Qed.

Lemma fdiv_no_IndexError (a b : float) : Py.fdiv a b <> Raise IndexError.
Proof. unfold Py.fdiv. by destruct (is_zero b). Qed.

Create HintDb pyexn.
#[local] Hint Resolve float_of_int_no_IndexError int_of_float_no_IndexError
  fdiv_no_IndexError : pyexn.

Lemma display_size_no_IndexError (f : ndarray) (ratio : float) :
  display_size f ratio <> Raise IndexError.
Proof.
  unfold display_size, Py.truediv, Py.int_mul.
  repeat (apply rbind_no_IndexError; [auto with pyexn | intros ?]);
    auto with pyexn.
Qed.

Lemma apply_filter_total (h : heap) (frame : loc) (F : ndarray)
    (color : option string) :
  h !! frame = Some F ->
  exists F',
    apply_filter frame color h
    = Ok (fresh (dom h), <[fresh (dom h) := F']> h).
Proof.
  intros HF.
  assert (h !! fresh (dom h) = None) as Hnew
    by (apply not_elem_of_dom, is_fresh).
  assert (fresh (dom h) <> frame) as Hne by (intros E; congruence).
  unfold apply_filter, bind, load, alloc, store, ret.
  rewrite HF. simpl.
  repeat case_decide;
    rewrite ?lookup_insert_eq, ?(lookup_insert_ne _ _ _ _ Hne), ?HF;
    simpl; rewrite ?lookup_insert_eq, ?insert_insert_eq; eauto.
Qed.

Lemma processed_frame_total (self : CameraStreamUI) (h : heap) (frame : loc)
    (F : ndarray) :
  h !! frame = Some F ->
  exists F',
    processed_frame self frame h
    = Ok (fresh (dom h), <[fresh (dom h) := F']> h).
Proof.
  intros HF. unfold processed_frame.
  destruct (Py.truthy (selected_filter self)).
  - by eapply apply_filter_total.
  - unfold ndarray_copy, bind, load, alloc. rewrite HF. eauto.
Qed.

Section Compositor.

Variable interp : ndarray -> Z -> Z -> Z -> Z -> pixel.

Lemma cv2_resize_inv (src out : ndarray) (dw dh : Z) :
  cv2_resize interp src dw dh = Ok out ->
  0 < dw /\ 0 < dh /\ out = tabulate dh dw (interp src dw dh).
Proof.
  unfold cv2_resize.
  destruct ((dw <=? 0) || (dh <=? 0) || (nrows src =? 0) || (ncols src =? 0))
    eqn:E; [discriminate|].
  intros [= <-]. repeat split; lia.
Qed.

Lemma place_stream_inv (panel frame : loc) (x y w h : Z) (ratio : float)
    (hp hp' : heap) (res : Z * Z * Z * Z) :
  place_stream interp panel frame x y w h ratio hp = Ok (res, hp') ->
  exists (F P P' : ndarray) (dw dh : Z),
    hp !! frame = Some F /\ hp !! panel = Some P
    /\ display_size F ratio = Ok (dw, dh)
    /\ 0 < dw /\ 0 < dh
    /\ res = (x + w / 2 - dw / 2, y + h / 2 - dh / 2, dh, dw)
    /\ slice_assign P (y + h / 2 - dh / 2) (y + h / 2 - dh / 2 + dh)
         (x + w / 2 - dw / 2) (x + w / 2 - dw / 2 + dw)
         (tabulate dh dw (interp F dw dh)) = Ok P'
    /\ hp' = <[panel := P']> hp.
Proof.
  unfold place_stream, bind, load, lift, store, ret. intros H.
  destruct (hp !! frame) as [F|] eqn:HF; [|discriminate].
  destruct (display_size F ratio) as [[dw dh]|] eqn:Hsize; [|discriminate].
  destruct (cv2_resize interp F dw dh) as [resized|] eqn:Hres; [|discriminate].
  apply cv2_resize_inv in Hres as (Hdw & Hdh & ->).
  destruct (hp !! panel) as [P|] eqn:HP; [|discriminate].
  destruct (slice_assign P _ _ _ _ _) as [P'|] eqn:Hw; [|discriminate].
  rewrite HP in H. injection H as <- <-.
  exists F, P, P', dw, dh. repeat split; auto.
Qed.

Lemma place_stream_checked (panel frame : loc) (x y w h : Z) (ratio : float)
    (hp : heap) (F P : ndarray) :
  hp !! frame = Some F -> hp !! panel = Some P -> rectangular P ->
  place_stream interp panel frame x y w h ratio hp <> Raise IndexError
  /\ forall res hp',
       place_stream interp panel frame x y w h ratio hp = Ok (res, hp') ->
       exists P', hp' = <[panel := P']> hp /\ widths P' = widths P.
Proof.
  intros HF HP Hrect. split.
  - unfold place_stream, bind, load, lift, store, ret. rewrite HF.
    pose proof (display_size_no_IndexError F ratio) as Hsize.
    destruct (display_size F ratio) as [[dw dh]|e]; [|congruence].
    destruct (cv2_resize interp F dw dh) as [resized|e] eqn:Hres.
    2:{ unfold cv2_resize in Hres.
        destruct ((dw <=? 0) || (dh <=? 0) || (nrows F =? 0) || (ncols F =? 0));
          congruence. }
    apply cv2_resize_inv in Hres as (Hdw & Hdh & ->).
    rewrite HP.
    destruct (tabulate_shape dh dw (interp F dw dh) Hdh ltac:(lia))
      as (_ & _ & Hrv).
    destruct (slice_assign_safe P (tabulate dh dw (interp F dw dh))
                (y + h / 2 - dh / 2) (y + h / 2 - dh / 2 + dh)
                (x + w / 2 - dw / 2) (x + w / 2 - dw / 2 + dw) Hrect Hrv)
      as [-> | (P' & -> & _)]; [discriminate|].
    rewrite HP. discriminate.
  - intros res hp' Hrun.
    apply place_stream_inv in Hrun
      as (F0 & P0 & P' & dw & dh & HF0 & HP0 & _ & Hdw & Hdh & _ & Hw & ->).
    assert (P0 = P) as -> by congruence.
    destruct (tabulate_shape dh dw (interp F0 dw dh) Hdh ltac:(lia))
      as (_ & _ & Hrv).
    destruct (slice_assign_safe P (tabulate dh dw (interp F0 dw dh))
                (y + h / 2 - dh / 2) (y + h / 2 - dh / 2 + dh)
                (x + w / 2 - dw / 2) (x + w / 2 - dw / 2 + dw) Hrect Hrv)
      as [E | (P1 & E & Hwid)]; rewrite E in Hw; [discriminate|].
    injection Hw as <-. eauto.
Qed.

(** An image that does not fit the canvas raises [ValueError]: the frame is
    not drawn and nothing is clipped. *)
Lemma place_stream_exceeding (panel frame : loc) (x y w h : Z) (ratio : float)
    (hp : heap) (F P : ndarray) (dw dh : Z) :
  hp !! frame = Some F -> hp !! panel = Some P ->
  display_size F ratio = Ok (dw, dh) ->
  0 < nrows F -> 0 < ncols F -> 1 < dw -> 1 < dh ->
  0 <= x + w / 2 -> 0 <= y + h / 2 ->
  y + h / 2 - dh / 2 < 0 \/ x + w / 2 - dw / 2 < 0
  \/ nrows P < y + h / 2 - dh / 2 + dh \/ ncols P < x + w / 2 - dw / 2 + dw ->
  place_stream interp panel frame x y w h ratio hp = Raise ValueError.
Proof.
  intros HF HP Hsize HFr HFc Hdw Hdh Hxc Hyc Hout.
  unfold place_stream, bind, load, lift, store, ret.
  rewrite HF, Hsize. unfold cv2_resize.
  assert ((dw <=? 0) || (dh <=? 0) || (nrows F =? 0) || (ncols F =? 0) = false)
    as -> by lia.
  rewrite HP.
  destruct (tabulate_shape dh dw (interp F dw dh) ltac:(lia) ltac:(lia))
    as (Hn & Hm & _).
  pose proof (Z.div_mod dw 2 ltac:(lia)) as E1.
  pose proof (Z.mod_pos_bound dw 2 ltac:(lia)) as E2.
  pose proof (Z.div_mod dh 2 ltac:(lia)) as E3.
  pose proof (Z.mod_pos_bound dh 2 ltac:(lia)) as E4.
  pose proof (slice_assign_exceeding P (tabulate dh dw (interp F dw dh))
                (y + h / 2 - dh / 2) (x + w / 2 - dw / 2)) as Hraise.
  rewrite Hn, Hm in Hraise. rewrite Hraise; [reflexivity | lia ..].
Qed.

(** Where the returned placement lies inside the canvas, the canvas shows
    the resized frame in exactly that rectangle and is otherwise as
    before. *)
Lemma place_stream_pixels (panel frame : loc) (x y w h : Z) (ratio : float)
    (hp hp' : heap) (P : ndarray) (x1 y1 dh dw : Z) :
  hp !! panel = Some P ->
  place_stream interp panel frame x y w h ratio hp
  = Ok ((x1, y1, dh, dw), hp') ->
  0 <= x1 -> 0 <= y1 -> y1 + dh <= nrows P -> x1 + dw <= ncols P ->
  exists F P',
    hp !! frame = Some F /\ hp' = <[panel := P']> hp
    /\ forall r c, 0 <= r -> 0 <= c ->
         pixel_at P' (Z.to_nat r) (Z.to_nat c)
         = if decide (y1 <= r < y1 + dh /\ x1 <= c < x1 + dw)
           then Some (interp F dw dh (r - y1) (c - x1))
           else pixel_at P (Z.to_nat r) (Z.to_nat c).
Proof.
  intros HP Hrun Hx Hy Hfy Hfx.
  apply place_stream_inv in Hrun
    as (F & P0 & P' & dw0 & dh0 & HF & HP0 & _ & Hdw & Hdh & Hres & Hw & ->).
  assert (P0 = P) as -> by congruence.
  injection Hres as -> -> -> ->.
  exists F, P'. split; [exact HF|]. split; [reflexivity|].
  by eapply slice_assign_pixels.
Qed.

End Compositor.

(** C5: with the canvas and the frame in place, neither stream routine ever
    reads or writes outside an array: each either raises one of Python's
    errors other than the out-of-range one or returns, and then the canvas
    has the shape it had. When the scaled image is more than one pixel wide
    and high, is centred on a point of non-negative coordinates and does
    not lie inside the canvas, the write is refused with [ValueError]. *)
Theorem stream_write_within_canvas
    (interp : ndarray -> Z -> Z -> Z -> Z -> pixel) (self : CameraStreamUI)
    (panel frame : loc) (x y w h : Z) (ratio : float)
    (hp : heap) (F P : ndarray) :
  hp !! frame = Some F -> hp !! panel = Some P -> rectangular P ->
  (draw_original_stream interp self panel frame x y w h ratio hp
   <> Raise IndexError
   /\ forall res hp',
        draw_original_stream interp self panel frame x y w h ratio hp
        = Ok (res, hp') ->
        exists P', hp' !! panel = Some P' /\ widths P' = widths P)
  /\ (draw_processed_stream interp self panel frame x y w h ratio hp
      <> Raise IndexError
      /\ forall res hp',
           draw_processed_stream interp self panel frame x y w h ratio hp
           = Ok (res, hp') ->
           exists P', hp' !! panel = Some P' /\ widths P' = widths P)
  /\ (forall dw dh,
        display_size F ratio = Ok (dw, dh) ->
        0 < nrows F -> 0 < ncols F -> 1 < dw -> 1 < dh ->
        0 <= x + w / 2 -> 0 <= y + h / 2 ->
        y + h / 2 - dh / 2 < 0 \/ x + w / 2 - dw / 2 < 0
        \/ nrows P < y + h / 2 - dh / 2 + dh
        \/ ncols P < x + w / 2 - dw / 2 + dw ->
        draw_original_stream interp self panel frame x y w h ratio hp
        = Raise ValueError).
Proof.
  intros HF HP Hrect. unfold draw_original_stream, draw_processed_stream.
  split; [|split].
  - destruct (place_stream_checked interp panel frame x y w h ratio hp F P
                HF HP Hrect) as [Hne Hok].
    split; [exact Hne|].
    intros res hp' Hrun. destruct (Hok _ _ Hrun) as (P' & -> & Hw).
    exists P'. by rewrite lookup_insert_eq.
  - destruct (processed_frame_total self hp frame F HF) as [F' Hproc].
    assert (hp !! fresh (dom hp) = None) as Hnew
      by (apply not_elem_of_dom, is_fresh).
    assert (fresh (dom hp) <> panel) as Hne by (intros E; congruence).
    assert (<[fresh (dom hp) := F']> hp !! panel = Some P) as HP1
      by (by rewrite lookup_insert_ne).
    assert (<[fresh (dom hp) := F']> hp !! fresh (dom hp) = Some F') as HF1
      by apply lookup_insert_eq.
    destruct (place_stream_checked interp panel (fresh (dom hp)) x y w h ratio
                _ F' P HF1 HP1 Hrect) as [Hsafe Hok].
    unfold bind. rewrite Hproc. split; [exact Hsafe|].
    intros res hp' Hrun. destruct (Hok _ _ Hrun) as (P' & -> & Hw).
    exists P'. by rewrite lookup_insert_eq.
  - intros dw dh Hsize HFr HFc Hdw Hdh Hxc Hyc Hout.
    by eapply place_stream_exceeding.
Qed.

Lemma stream_write_within_canvas_witness :
  draw_original_stream nearest_interp (init 0 0) 1%positive 2%positive
    0 1 8 10 default_ratio (sample_heap 6 10) <> Raise IndexError
  /\ draw_original_stream nearest_interp (init 0 0) 1%positive 2%positive
       0 1 8 10 default_ratio (sample_heap 6 10) = Raise ValueError.
Proof.
  assert (sample_heap 6 10 !! 2%positive = Some (sample_frame 6 10)) as HF
    by (vm_compute; reflexivity).
  assert (sample_heap 6 10 !! 1%positive
          = Some (tabulate 12 16 (fun _ _ => Pixel 40 40 40))) as HP
    by (vm_compute; reflexivity).
  assert (rectangular (tabulate 12 16 (fun _ _ => Pixel 40 40 40))) as Hrect
    by (apply tabulate_shape; lia).
  destruct (stream_write_within_canvas nearest_interp (init 0 0) 1%positive
              2%positive 0 1 8 10 default_ratio _ _ _ HF HP Hrect)
    as ([Hsafe _] & _ & Hexceeds).
  split; [exact Hsafe|].
  apply (Hexceeds 12 7);
    [vm_compute; reflexivity | vm_compute; reflexivity
    | vm_compute; reflexivity | lia | lia
    | Z.div_mod_to_equations; lia | Z.div_mod_to_equations; lia
    | right; left; Z.div_mod_to_equations; lia].
Defined.

(** A write that succeeded with an image more than one pixel wide and high
    at non-negative coordinates has found the whole image inside the
    canvas. *)
Lemma placement_inside_canvas
    (interp : ndarray -> Z -> Z -> Z -> Z -> pixel) (self : CameraStreamUI)
    (panel frame : loc) (x y w h : Z) (ratio : float) (hp hp' : heap)
    (P : ndarray) (x1 y1 display_h display_w : Z) :
  hp !! panel = Some P ->
  draw_original_stream interp self panel frame x y w h ratio hp
  = Ok ((x1, y1, display_h, display_w), hp') ->
  0 <= x1 -> 0 <= y1 -> 1 < display_w -> 1 < display_h ->
  y1 + display_h <= nrows P /\ x1 + display_w <= ncols P.
Proof.
  unfold draw_original_stream. intros HP Hrun Hx Hy Hdw Hdh.
  apply place_stream_inv in Hrun
    as (F & P0 & P' & dw & dh & _ & HP0 & _ & _ & _ & Hres & Hw & _).
  assert (P0 = P) as -> by congruence.
  injection Hres as -> -> -> ->.
  destruct (tabulate_shape dh dw (interp F dw dh) ltac:(lia) ltac:(lia))
    as (Hn & Hm & _).
  destruct (Z_le_gt_dec (y + h / 2 - dh / 2 + dh) (nrows P)) as [Hfy|Hfy];
    [destruct (Z_le_gt_dec (x + w / 2 - dw / 2 + dw) (ncols P)) as [Hfx|Hfx]|];
    [by split | exfalso ..].
  all: pose proof (slice_assign_exceeding P (tabulate dh dw (interp F dw dh))
                     (y + h / 2 - dh / 2) (x + w / 2 - dw / 2)) as Hraise;
    rewrite Hn, Hm in Hraise; rewrite Hraise in Hw; [discriminate | lia ..].
Qed.




(** ** The session *)

Section Session.

Variable interp : ndarray -> Z -> Z -> Z -> Z -> pixel.
Variable ink :
  CameraStreamUI -> list (string * rect) -> Z -> Z -> Z -> Z -> pixel -> pixel.

Lemma main_loop_events (screen_w screen_h : Z) (l : layout) (todo : list tick) :
  forall (self : CameraStreamUI) (h : heap),
    Forall (fun ev => ev <> EvRelease /\ ev <> EvDestroyAllWindows)
      (snd (main_loop interp ink self screen_w screen_h l h todo)).
Proof.
  induction todo as [|t rest IH]; intros self h; simpl; [constructor|].
  destruct (tk_read t) as [frame|]; [|by repeat constructor].
  destruct (update_fps self (tk_time t)) as [self1|e]; [|constructor].
  destruct (compose interp ink self1 frame screen_w screen_h l h)
    as [[canvas h1]|e]; [|constructor].
  destruct (Z.land (tk_key t) 255 =? 113); [by repeat constructor|].
  match goal with |- context [main_loop interp ink ?s _ _ _ ?hp rest] =>
    specialize (IH s hp);
    destruct (main_loop interp ink s screen_w screen_h l hp rest)
      as [[o s'] evs] end.
  simpl in *. by constructor.
Qed.

(** A failed read inside the loop and the quit key both leave the loop by
    [break]. *)
Lemma main_loop_break (screen_w screen_h : Z) (l : layout)
    (self : CameraStreamUI) (h : heap) (t : tick) (rest : list tick) :
  (tk_read t = None ->
   main_loop interp ink self screen_w screen_h l h (t :: rest)
   = (Returned, self, [EvPrint "Error: Failed to read frame."]))
  /\ (forall frame self1 canvas h1,
        tk_read t = Some frame ->
        update_fps self (tk_time t) = Ok self1 ->
        compose interp ink self1 frame screen_w screen_h l h = Ok (canvas, h1) ->
        Z.land (tk_key t) 255 = 113 ->
        fst (fst (main_loop interp ink self screen_w screen_h l h (t :: rest)))
        = Returned).
Proof.
  split.
  - intros Hread. simpl. by rewrite Hread.
  - intros frame self1 canvas h1 Hread Hfps Hdraw Hkey. simpl.
    rewrite Hread, Hfps, Hdraw, Hkey. reflexivity.
Qed.

(** C8: when the capture did not open, [run] prints the error and returns.
    That print is all it does: no window is created, no frame is read, the
    loop is not entered and the object is unchanged. *)
Theorem run_camera_unavailable (self : CameraStreamUI) (w : world) :
  cap_isOpened w = false ->
  run interp ink self w
  = (Returned, self, [EvPrint "Error: Could not open camera."]).
Proof. intros Hclosed. unfold run. by rewrite Hclosed. Qed.

(** C7, amended: a session that got its first frame and whose [run]
    returns (the quit key, or a failed read inside the loop) has released
    the capture and destroyed the windows as its last two actions. A
    session whose capture did not open returns after the error message
    alone: nothing was acquired and nothing is released. *)
Theorem run_cleanup_after_loop (self self' : CameraStreamUI) (w : world)
    (evs : list event) :
  run interp ink self w = (Returned, self', evs) ->
  (cap_isOpened w = false ->
   evs = [EvPrint "Error: Could not open camera."])
  /\ (cap_isOpened w = true -> is_Some (first_read w) ->
      ends_with_cleanup evs).
Proof.
  intros Hrun. split.
  - intros Hclosed. unfold run in Hrun. rewrite Hclosed in Hrun.
    by injection Hrun as _ <-.
  - intros Hopen [frame Hfirst]. unfold run in Hrun.
    rewrite Hopen, Hfirst in Hrun. simpl in Hrun.
    destruct (Py.truediv _ _); [|discriminate].
    destruct (screen_resolution w) as [screen_w screen_h].
    destruct (compute_layout screen_w screen_h) as [l|e]; [|discriminate].
    pose proof (main_loop_events screen_w screen_h l (ticks w) self ∅) as Hevs.
    destruct (main_loop interp ink self screen_w screen_h l ∅ (ticks w))
      as [[o s] body].
    destruct o; try discriminate.
    injection Hrun as _ <-. simpl in Hevs.
    exists ([EvNamedWindow window_name; EvSetWindowProperty window_name;
             EvSetMouseCallback window_name
               {[ "panel_width"%string := screen_w ]}] ++ body).
    split; [reflexivity|].
    apply Forall_app. split; [|exact Hevs].
    by repeat constructor.
Qed.

End Session.

Lemma run_camera_unavailable_witness :
  run nearest_interp no_ink (init 0 0)
    {| cap_isOpened := false; first_read := None;
       screen_resolution := (16, 12); ticks := [] |}
  = (Returned, init 0 0, [EvPrint "Error: Could not open camera."]).
Proof. apply (run_camera_unavailable nearest_interp no_ink). reflexivity. Defined.

(** One frame is shown, then the quit key arrives. *)
Lemma run_cleanup_after_loop_witness :
  ends_with_cleanup
    (snd (run nearest_interp no_ink (init 0 0)
            (sample_world (Some (sample_frame 3 4))
               [sample_tick (Some (sample_frame 3 4)) 1 [] 113]))).
Proof.
  destruct (run nearest_interp no_ink (init 0 0)
              (sample_world (Some (sample_frame 3 4))
                 [sample_tick (Some (sample_frame 3 4)) 1 [] 113]))
    as [[o s] evs] eqn:Hrun.
  assert (o = Returned) as ->
    by (apply (f_equal (fun r => fst (fst r))) in Hrun; vm_compute in Hrun;
        congruence).
  simpl.
  apply (run_cleanup_after_loop nearest_interp no_ink _ _ _ _ Hrun);
    [reflexivity | by eexists].
Defined.

(** The read of line 193 fails: the window exists by then, and [run]
    returns without releasing the capture or destroying the window. With a
    capture that did not open, [run] returns without releasing it. *)
Lemma run_returns_without_cleanup :
  (let '(o, _, evs) :=
     run nearest_interp no_ink (init 0 0) (sample_world None []) in
   o = Returned /\ (EvNamedWindow "Percept3D" ∈ evs)
   /\ (EvRelease ∉ evs) /\ (EvDestroyAllWindows ∉ evs))
  /\ (let '(o, _, evs) :=
        run nearest_interp no_ink (init 0 0)
          {| cap_isOpened := false; first_read := None;
             screen_resolution := (16, 12); ticks := [] |} in
      o = Returned /\ (EvRelease ∉ evs) /\ (EvDestroyAllWindows ∉ evs)).
Proof.
  split; simpl; (split; [reflexivity|]);
    repeat split; try (by left);
    intros Hin; repeat (apply elem_of_cons in Hin as [Hin|Hin]; [discriminate|]);
    by apply elem_of_nil in Hin.
Qed.

(** A click on the Green button, then the quit key: the session returns
    with green selected, after two frames shown and the cleanup. *)
Example run_click_then_quit :
  let '(o, self, evs) :=
    run nearest_interp no_ink (init 0 0)
      (sample_world (Some (sample_frame 3 4))
         [sample_tick (Some (sample_frame 3 4)) 1
            [{| p_event := EVENT_LBUTTONDOWN; p_x := 5; p_y := 20; p_flags := 0 |}]
            (-1);
          sample_tick (Some (sample_frame 3 4)) 2 [] 113]) in
  o = Returned /\ selected_filter self = Some "green"%string
  /\ fps self = 1%float
  /\ (fun ev => match ev with
                | EvImshow _ canvas =>
                    Some (pixel_at canvas 5 2, pixel_at canvas 5 10,
                          pixel_at canvas 0 0)
                | _ => None
                end) <$> evs
     = [None; None; None;
        Some (Some (Pixel 0 7 200), Some (Pixel 0 7 200), Some (Pixel 40 40 40));
        Some (Some (Pixel 0 7 200), Some (Pixel 0 7 0), Some (Pixel 40 40 40));
        None; None].
Proof. vm_compute. repeat split; reflexivity. Qed.

(** The camera stops delivering inside the loop: the message, then the
    cleanup. *)
Example run_read_fails_in_loop :
  run nearest_interp no_ink (init 0 0)
    (sample_world (Some (sample_frame 3 4)) [sample_tick None 1 [] 0])
  = (Returned, init 0 0,
     [EvNamedWindow "Percept3D"; EvSetWindowProperty "Percept3D";
      EvSetMouseCallback "Percept3D" {[ "panel_width"%string := 16 ]};
      EvPrint "Error: Failed to read frame.";
      EvRelease; EvDestroyAllWindows]).
Proof. vm_compute. reflexivity. Qed.

(** A frame whose scaled image is wider than its panel: the write raises,
    the exception leaves [run], and nothing after the loop is reached. *)
Example run_frame_too_large :
  let '(o, _, evs) :=
    run nearest_interp no_ink (init 0 0)
      (sample_world (Some (sample_frame 6 10))
         [sample_tick (Some (sample_frame 6 10)) 1 [] 113]) in
  o = Uncaught ValueError
  /\ evs = [EvNamedWindow "Percept3D"; EvSetWindowProperty "Percept3D";
            EvSetMouseCallback "Percept3D" {[ "panel_width"%string := 16 ]}].
Proof. vm_compute. split; reflexivity. Qed.

(** The same at full size: a camera of 1280 by 720 on a screen of 1920 by
    1080 is scaled to 1536 by 864, wider than the panel of 960, and starts
    at column -288. *)
Example hd_camera_on_full_hd_screen :
  compute_layout 1920 1080
  = Ok {| header_rect := (0, 0, 1920, 108);
          footer_rect := (0, 972, 1920, 108);
          orig_rect := (0, 108, 960, 864);
          proc_rect := (960, 108, 960, 864) |}
  /\ (try a <- Py.truediv 1280 720;
      try dw <- Py.int_mul 1280 default_ratio;
      try dwf <- Py.float_of_int dw;
      try q <- Py.fdiv dwf a;
      try dh <- Py.int_of_float q;
      Ok (dw, dh, 0 + 960 / 2 - dw / 2)) = Ok (1536, 864, -288)
  /\ slice_indices (-288) (-288 + 1536) 1920 = (1632, 1248).
Proof. vm_compute. repeat split; reflexivity. Qed.

(** * Further properties *)

(** ** The hit test and the mouse callback *)

(** The positions 0, 1 and 2 of the buttons, as integers. *)
Ltac small_positions :=
  change (Z.of_nat 0) with 0 in *; change (Z.of_nat 1) with 1 in *;
  change (Z.of_nat 2) with 2 in *.

Lemma get_button_clicked_hits (self : CameraStreamUI) (x y panel_width : Z)
    (name : string) :
  0 <= button_width self -> 0 < button_margin self ->
  get_button_clicked self x y panel_width = Some name
  <-> exists i, filter_names !! i = Some name
                /\ in_hit_rect self panel_width i x y.
Proof.
  intros Hw Hm. unfold get_button_clicked, enumerate, in_hit_rect, filter_names.
  simpl.
  set (sx := (panel_width - (3 * button_width self + 2 * button_margin self)) / 2).
  set (by_ := (header_height self - button_height self) / 2).
  clearbody sx by_. split.
  - intros Hhit.
    repeat match type of Hhit with
           | (if ?b then _ else _) = _ => destruct b eqn:?
           end; try discriminate; injection Hhit as <-;
      [exists 0%nat | exists 1%nat | exists 2%nat]; simpl; split; try done;
      small_positions; lia.
  - intros (i & Hname & Hx & Hy).
    destruct i as [|[|[|i]]]; simpl in Hname; try discriminate;
      injection Hname as <-; simpl in Hx;
      repeat match goal with
             | |- (if ?b then _ else _) = _ => destruct b eqn:?
             end; try reflexivity; small_positions; lia.
Qed.



(** X2: with a non-negative button width and a positive margin, the hit
    test answers a name exactly when the point lies in that button's
    rectangle (edges included); the three rectangles are disjoint, so at
    most one position qualifies. *)
Theorem get_button_clicked_iff (self : CameraStreamUI) (x y panel_width : Z)
    (name : string) :
  0 <= button_width self -> 0 < button_margin self ->
  (get_button_clicked self x y panel_width = Some name
   <-> exists i, filter_names !! i = Some name
                 /\ in_hit_rect self panel_width i x y)
  /\ (forall i j, (i < 3)%nat -> (j < 3)%nat ->
        in_hit_rect self panel_width i x y ->
        in_hit_rect self panel_width j x y -> i = j).
Proof.
  intros Hw Hm. split; [by apply get_button_clicked_hits|].
  unfold in_hit_rect. intros i j Hi Hj [Hxi _] [Hxj _].
  destruct i as [|[|[|i]]], j as [|[|[|j]]]; simpl in *; small_positions; lia.
Qed.

Lemma get_button_clicked_iff_witness :
  get_button_clicked (init 0 0) 1190 40 1920 = Some "blue"%string.
Proof.
  apply (get_button_clicked_iff (init 0 0) 1190 40 1920 "blue");
    [simpl; lia | simpl; lia |].
  exists 2%nat. split; [reflexivity|].
  unfold in_hit_rect. simpl. Z.div_mod_to_equations. lia.
Defined.

(** X3: [mouse_callback] looks only at the entry [panel_width] of its
    [param]: with no [param], an empty dict or a dict without that key it
    behaves as with a width of 1920, and a dict with the key behaves as the
    dict holding that entry alone. *)
Theorem mouse_callback_param_default (self : CameraStreamUI)
    (event x y flags : Z) :
  mouse_callback self event x y flags None
  = mouse_callback self event x y flags
      (Some {[ "panel_width"%string := 1920 ]})
  /\ (forall d : gmap string Z, d !! "panel_width"%string = None ->
        mouse_callback self event x y flags (Some d)
        = mouse_callback self event x y flags None)
  /\ (forall (d : gmap string Z) v, d !! "panel_width"%string = Some v ->
        mouse_callback self event x y flags (Some d)
        = mouse_callback self event x y flags
            (Some {[ "panel_width"%string := v ]})).
Proof.
  assert (forall v : Z,
            ({[ "panel_width"%string := v ]} : gmap string Z) <> ∅) as Hne
    by (intros v; apply insert_non_empty).
  unfold mouse_callback. split; [|split].
  - case_decide as E; [by apply Hne in E|]. by rewrite lookup_singleton_eq.
  - intros d Hd. rewrite Hd. by case_decide.
  - intros d v Hd. rewrite Hd.
    case_decide as E1; [subst d; by rewrite lookup_empty in Hd|].
    case_decide as E2; [by apply Hne in E2|]. by rewrite lookup_singleton_eq.
Qed.

(** X4: [mouse_callback] selects a filter exactly on a left-button-down
    above row [header_height] inside one of the hit rectangles, and it then
    selects that button's name whatever was selected before; on any other
    event the object is returned as it is. No other attribute is ever
    assigned. *)
Theorem mouse_callback_spec (self : CameraStreamUI) (event x y flags : Z)
    (param : option (gmap string Z)) :
  0 <= button_width self -> 0 < button_margin self ->
  (forall i name,
      event = EVENT_LBUTTONDOWN -> y < header_height self ->
      filter_names !! i = Some name ->
      in_hit_rect self (param_width param) i x y ->
      mouse_callback self event x y flags param
      = set_selected_filter self (Some name))
  /\ (event <> EVENT_LBUTTONDOWN \/ header_height self <= y
      \/ (forall i, (i < 3)%nat -> ~ in_hit_rect self (param_width param) i x y) ->
      mouse_callback self event x y flags param = self).
Proof.
  intros Hw Hm.
  assert (mouse_callback self event x y flags param
          = if (event =? EVENT_LBUTTONDOWN) && (y <? header_height self)
            then let clicked := get_button_clicked self x y (param_width param) in
                 if Py.truthy clicked then set_selected_filter self clicked
                 else self
            else self) as ->.
  { unfold mouse_callback, param_width. destruct param as [d|]; [|done].
    case_decide as E; [subst d; by rewrite lookup_empty|].
    by destruct (d !! "panel_width"%string). }
  split.
  - intros i name -> Hy Hname Hin.
    assert ((EVENT_LBUTTONDOWN =? EVENT_LBUTTONDOWN) && (y <? header_height self)
            = true) as -> by (unfold EVENT_LBUTTONDOWN; lia).
    assert (get_button_clicked self x y (param_width param) = Some name) as ->
      by (apply get_button_clicked_hits; eauto).
    simpl. destruct i as [|[|[|i]]]; simpl in Hname; try discriminate;
      by injection Hname as <-.
  - intros Hno.
    destruct ((event =? EVENT_LBUTTONDOWN) && (y <? header_height self)) eqn:Hacc;
      [|done].
    destruct Hno as [Hev | [Hy | Hmiss]]; [lia | lia |].
    destruct (get_button_clicked self x y (param_width param)) as [name|] eqn:Hhit;
      [|done].
    apply get_button_clicked_hits in Hhit as (i & Hname & Hin); try done.
    exfalso. apply (Hmiss i); [|done].
    apply lookup_lt_Some in Hname. simpl in Hname. lia.
Qed.

Lemma mouse_callback_spec_witness :
  mouse_callback (init 0 0) EVENT_LBUTTONDOWN 960 40 0 None
  = set_selected_filter (init 0 0) (Some "green"%string)
  /\ mouse_callback (init 0 0) EVENT_LBUTTONDOWN 960 90 0 None = init 0 0.
Proof.
  destruct (mouse_callback_spec (init 0 0) EVENT_LBUTTONDOWN 960 40 0 None
              ltac:(simpl; lia) ltac:(simpl; lia)) as [Hhit _].
  destruct (mouse_callback_spec (init 0 0) EVENT_LBUTTONDOWN 960 90 0 None
              ltac:(simpl; lia) ltac:(simpl; lia)) as [_ Hmiss].
  split.
  - apply (Hhit 1%nat "green"%string); [reflexivity | simpl; lia | reflexivity |].
    unfold in_hit_rect. simpl. Z.div_mod_to_equations. lia.
  - apply Hmiss. right. left. simpl. lia.
Defined.

(** ** What the methods keep *)

Section Preserved.

Variable interp : ndarray -> Z -> Z -> Z -> Z -> pixel.
Variable ink :
  CameraStreamUI -> list (string * rect) -> Z -> Z -> Z -> Z -> pixel -> pixel.
Variable P : CameraStreamUI -> Prop.
Hypothesis P_update_fps :
  forall self t self', P self -> update_fps self t = Ok self' -> P self'.
Hypothesis P_mouse_callback :
  forall self event x y flags param,
    P self -> P (mouse_callback self event x y flags param).

Lemma pointer_events_preserve (screen_w : Z) (ps : list pointer)
    (self : CameraStreamUI) :
  P self ->
  P (foldl (fun s p =>
              mouse_callback s (p_event p) (p_x p) (p_y p) (p_flags p)
                (Some {[ "panel_width"%string := screen_w ]}))
           self ps).
Proof using P_mouse_callback.
  revert self. induction ps as [|p ps IH]; intros self HP; simpl; [exact HP|].
  apply IH. by apply P_mouse_callback.
Qed.

Lemma main_loop_preserves (screen_w screen_h : Z) (l : layout)
    (todo : list tick) :
  forall (self : CameraStreamUI) (h : heap),
    P self ->
    P (snd (fst (main_loop interp ink self screen_w screen_h l h todo))).
Proof using P_update_fps P_mouse_callback.
  induction todo as [|t rest IH]; intros self h HP; simpl; [exact HP|].
  destruct (tk_read t) as [frame|]; [|exact HP].
  destruct (update_fps self (tk_time t)) as [self1|e] eqn:Hfps; [|exact HP].
  pose proof (P_update_fps _ _ _ HP Hfps) as HP1.
  destruct (compose interp ink self1 frame screen_w screen_h l h)
    as [[canvas h1]|e]; [|exact HP1].
  pose proof (pointer_events_preserve screen_w (tk_pointer t) self1 HP1) as HP2.
  destruct (Z.land (tk_key t) 255 =? 113); [exact HP2|].
  specialize (IH _ h1 HP2).
  destruct (main_loop interp ink _ screen_w screen_h l h1 rest) as [[o s] evs].
  exact IH.
Qed.

Lemma run_preserves (self : CameraStreamUI) (w : world) :
  P self -> P (snd (fst (run interp ink self w))).
Proof using P_update_fps P_mouse_callback.
  intros HP. unfold run.
  destruct (cap_isOpened w); simpl; [|exact HP].
  destruct (first_read w) as [frame|]; [|exact HP].
  destruct (Py.truediv _ _); [|exact HP].
  destruct (screen_resolution w) as [screen_w screen_h].
  destruct (compute_layout screen_w screen_h) as [l|e]; [|exact HP].
  pose proof (main_loop_preserves screen_w screen_h l (ticks w) self ∅ HP) as H.
  destruct (main_loop interp ink self screen_w screen_h l ∅ (ticks w))
    as [[o s] evs].
  destruct o; exact H.
Qed.

Lemma calls_preserve (calls : list call) (self : CameraStreamUI) :
  P self -> P (foldl (after_call interp ink) self calls).
Proof using P_update_fps P_mouse_callback.
  revert self. induction calls as [|c calls IH]; intros self HP; simpl;
    [exact HP|].
  apply IH. destruct c as [t|event x y flags param|w]; simpl.
  - destruct (update_fps self t) eqn:Hfps; [|exact HP].
    by eapply P_update_fps.
  - by apply P_mouse_callback.
  - by apply run_preserves.
Qed.

End Preserved.

Lemma mouse_callback_fields (self : CameraStreamUI) (event x y flags : Z)
    (param : option (gmap string Z)) :
  mouse_callback self event x y flags param = self
  \/ exists name,
       mouse_callback self event x y flags param
       = set_selected_filter self (Some name).
Proof.
  unfold mouse_callback.
  destruct ((event =? EVENT_LBUTTONDOWN) && (y <? header_height self));
    [|by left].
  match goal with |- context [Py.truthy ?c] =>
    destruct c as [name|] eqn:Hc end; simpl; [|by left].
  destruct (negb (String.eqb name "")); [right; eauto | by left].
Qed.

(** X5: a selection is never cleared. Once a filter is selected, the
    selection stays one of the filters through any sequence of calls of
    [update_fps], [mouse_callback] and [run]: a click beside the buttons
    keeps the filter, and nothing assigns [None]. *)
Theorem selection_never_cleared
    (interp : ndarray -> Z -> Z -> Z -> Z -> pixel)
    (ink : CameraStreamUI -> list (string * rect) -> Z -> Z -> Z -> Z ->
           pixel -> pixel)
    (self : CameraStreamUI) (calls : list call) :
  is_Some (selected_filter self) ->
  is_Some (selected_filter (foldl (after_call interp ink) self calls)).
Proof.
  apply (calls_preserve interp ink (fun s => is_Some (selected_filter s))).
  - intros s t s' Hs Hfps. unfold update_fps in Hfps.
    destruct (Py.fdiv _ _); simpl in Hfps; [|discriminate].
    by injection Hfps as <-.
  - intros s event x y flags param Hs.
    destruct (mouse_callback_fields s event x y flags param) as [-> | [name ->]];
      [exact Hs | by eexists].
Qed.

Lemma selection_never_cleared_witness :
  is_Some
    (selected_filter
       (foldl (after_call nearest_interp no_ink)
          (set_selected_filter (init 0 0) (Some "red"%string))
          [CallMouseCallback EVENT_LBUTTONDOWN 0 0 0 None;
           CallUpdateFps 1%float])).
Proof.
  apply (selection_never_cleared nearest_interp no_ink). by eexists.
Defined.

(** X6: the constants of [__init__] stay what they are. No sequence of
    calls of [update_fps], [mouse_callback] and [run] changes the camera
    index, the header height the hit test uses, the button width, height
    and margin, or the background colour. *)
Theorem constants_never_change
    (interp : ndarray -> Z -> Z -> Z -> Z -> pixel)
    (ink : CameraStreamUI -> list (string * rect) -> Z -> Z -> Z -> Z ->
           pixel -> pixel)
    (index : Z) (now : float) (calls : list call) :
  let self := foldl (after_call interp ink) (init index now) calls in
  camera_index self = index /\ header_height self = 80
  /\ button_width self = 200 /\ button_height self = 50
  /\ button_margin self = 30 /\ bg_color self = Pixel 40 40 40.
Proof.
  apply (calls_preserve interp ink
           (fun s => camera_index s = index /\ header_height s = 80
                     /\ button_width s = 200 /\ button_height s = 50
                     /\ button_margin s = 30 /\ bg_color s = Pixel 40 40 40)).
  - intros s t s' Hs Hfps. unfold update_fps in Hfps.
    destruct (Py.fdiv _ _); simpl in Hfps; [|discriminate].
    by injection Hfps as <-.
  - intros s event x y flags param Hs.
    by destruct (mouse_callback_fields s event x y flags param)
      as [-> | [name ->]].
  - by simpl.
Qed.

(** ** More on the filter *)

Lemma zeros_like_widths (a : ndarray) : widths (zeros_like a) = widths a.
Proof.
  unfold widths, zeros_like. rewrite <- list_fmap_compose.
  apply list_fmap_ext. intros i row _. simpl. by rewrite length_fmap.
Qed.

Lemma zeros_like_pixel (a : ndarray) (r c : nat) (p : pixel) :
  pixel_at (zeros_like a) r c = Some p -> p = Pixel 0 0 0.
Proof.
  unfold pixel_at, zeros_like. rewrite list_lookup_fmap.
  destruct (a !! r) as [row|]; simpl; [|done].
  rewrite list_lookup_fmap. destruct (row !! c); simpl; [|done].
  by intros [= <-].
Qed.

Lemma assign_channel_zeros_keep (k : Z) (a : ndarray) :
  assign_channel k a (zeros_like a) = keep_channel k a.
Proof.
  unfold assign_channel, zeros_like, keep_channel.
  induction a as [|row a IH]; simpl; [done|]. f_equal; [|exact IH].
  clear IH. induction row as [|p row IH]; simpl; [done|]. by f_equal.
Qed.

Lemma zeros_like_keep_channel (k : Z) (a : ndarray) :
  zeros_like (keep_channel k a) = zeros_like a.
Proof.
  unfold zeros_like, keep_channel. rewrite <- list_fmap_compose.
  apply list_fmap_ext. intros i row _. simpl.
  by rewrite <- list_fmap_compose.
Qed.

Lemma keep_channel_twice (k k' : Z) (a : ndarray) :
  0 <= k <= 2 -> 0 <= k' <= 2 ->
  keep_channel k' (keep_channel k a)
  = if decide (k = k') then keep_channel k a else zeros_like a.
Proof.
  intros Hk Hk'. unfold keep_channel, zeros_like.
  rewrite <- list_fmap_compose.
  case_decide as E; apply list_fmap_ext; intros i row _; simpl;
    rewrite <- list_fmap_compose; apply list_fmap_ext; intros j [b g r] _;
    simpl;
    assert (k = 0 \/ k = 1 \/ k = 2) as [-> | [-> | ->]] by lia;
    assert (k' = 0 \/ k' = 1 \/ k' = 2) as [-> | [-> | ->]] by lia;
    try reflexivity; lia.
Qed.

(** X7: a colour that is not exactly 'red', 'green' or 'blue' (no
    selection, another spelling such as 'Red', the empty string) makes
    [apply_filter] return a new frame of the same shape that is black
    everywhere; the input frame is untouched. *)
Theorem apply_filter_unknown_black (h : heap) (frame : loc) (F : ndarray)
    (color : option string) :
  h !! frame = Some F ->
  color <> Some "red"%string -> color <> Some "green"%string ->
  color <> Some "blue"%string ->
  exists out,
    apply_filter frame color h = Ok (out, <[out := zeros_like F]> h)
    /\ h !! out = None
    /\ <[out := zeros_like F]> h !! frame = Some F
    /\ widths (zeros_like F) = widths F
    /\ forall r c p, pixel_at (zeros_like F) r c = Some p -> p = Pixel 0 0 0.
Proof.
  intros HF Hr Hg Hb.
  assert (h !! fresh (dom h) = None) as Hnew
    by (apply not_elem_of_dom, is_fresh).
  exists (fresh (dom h)).
  split.
  { unfold apply_filter, bind, load, alloc, ret. rewrite HF. simpl.
    by repeat (case_decide; [congruence|]). }
  split; [exact Hnew|].
  split; [rewrite lookup_insert_ne; [done | congruence]|].
  split; [apply zeros_like_widths | apply zeros_like_pixel].
Qed.

Lemma apply_filter_unknown_black_witness :
  exists out,
    apply_filter 2%positive (Some "Red"%string) (sample_heap 1 2)
    = Ok (out, <[out := [[Pixel 0 0 0; Pixel 0 0 0]]]> (sample_heap 1 2)).
Proof.
  assert (sample_heap 1 2 !! 2%positive = Some (sample_frame 1 2)) as HF
    by (vm_compute; reflexivity).
  destruct (apply_filter_unknown_black (sample_heap 1 2) 2%positive
              (sample_frame 1 2) (Some "Red"%string) HF
              ltac:(discriminate) ltac:(discriminate) ltac:(discriminate))
    as (out & Hrun & _).
  exists out. exact Hrun.
Defined.

(** X8: filtering a filtered frame. With the same colour the second pass
    gives the same picture as the first; with a different colour it gives a
    black frame. Each pass returns a new object and the camera frame stays
    as it was. *)
Theorem apply_filter_twice (h : heap) (frame : loc) (F : ndarray)
    (c c' : string) (k k' : Z) :
  h !! frame = Some F ->
  channel_of c = Some k -> channel_of c' = Some k' ->
  exists l1 h1 l2 h2,
    apply_filter frame (Some c) h = Ok (l1, h1)
    /\ apply_filter l1 (Some c') h1 = Ok (l2, h2)
    /\ h1 !! l1 = Some (keep_channel k F)
    /\ h2 !! l2 = Some (if decide (k = k') then keep_channel k F
                        else zeros_like F)
    /\ h2 !! l1 = Some (keep_channel k F)
    /\ h2 !! frame = Some F
    /\ l1 <> frame /\ l2 <> frame /\ l2 <> l1.
Proof.
  intros HF Hk Hk'.
  assert (0 <= k <= 2) as Hrange
    by (destruct (channel_of_cases _ _ Hk) as [[_ ->] | [[_ ->] | [_ ->]]]; lia).
  assert (0 <= k' <= 2) as Hrange'
    by (destruct (channel_of_cases _ _ Hk') as [[_ ->] | [[_ ->] | [_ ->]]]; lia).
  set (l1 := fresh (dom h)).
  set (h1 := <[l1 := assign_channel k F (zeros_like F)]> h).
  assert (h !! l1 = None) as Hnew1 by (apply not_elem_of_dom, is_fresh).
  assert (h1 !! l1 = Some (keep_channel k F)) as H1
    by (unfold h1; by rewrite lookup_insert_eq, assign_channel_zeros_keep).
  set (l2 := fresh (dom h1)).
  assert (h1 !! l2 = None) as Hnew2 by (apply not_elem_of_dom, is_fresh).
  assert (l1 <> frame) as Hne1 by (intros E; congruence).
  assert (h1 !! frame = Some F) as HF1
    by (unfold h1; by rewrite lookup_insert_ne).
  assert (l2 <> frame) as Hne2 by (intros E; congruence).
  assert (l2 <> l1) as Hne3 by (intros E; congruence).
  exists l1, h1, l2,
    (<[l2 := assign_channel k' (keep_channel k F)
               (zeros_like (keep_channel k F))]> h1).
  split; [by apply apply_filter_run|].
  split; [by apply apply_filter_run|].
  split; [exact H1|].
  split.
  { rewrite lookup_insert_eq, assign_channel_zeros_keep.
    by rewrite keep_channel_twice. }
  split; [by rewrite lookup_insert_ne|].
  split; [by rewrite lookup_insert_ne|].
  done.
Qed.

Lemma apply_filter_twice_witness :
  exists l1 h1 l2 h2,
    apply_filter 2%positive (Some "red"%string) (sample_heap 1 2) = Ok (l1, h1)
    /\ apply_filter l1 (Some "blue"%string) h1 = Ok (l2, h2)
    /\ h2 !! l2 = Some [[Pixel 0 0 0; Pixel 0 0 0]].
Proof.
  assert (sample_heap 1 2 !! 2%positive = Some (sample_frame 1 2)) as HF
    by (vm_compute; reflexivity).
  destruct (apply_filter_twice (sample_heap 1 2) 2%positive (sample_frame 1 2)
              "red" "blue" 2 0 HF eq_refl eq_refl)
    as (l1 & h1 & l2 & h2 & Hrun1 & Hrun2 & _ & Hout & _).
  exists l1, h1, l2, h2. split; [exact Hrun1|]. split; [exact Hrun2|].
  exact Hout.
Defined.

(** ** Painting and writing keep the shape of the canvas *)

Lemma paint_pixel (a : ndarray) (f : Z -> Z -> pixel -> pixel) (i j : nat) :
  pixel_at (paint a f) i j = f (Z.of_nat i) (Z.of_nat j) <$> pixel_at a i j.
Proof.
  unfold pixel_at, paint. rewrite list_lookup_imap.
  destruct (a !! i) as [row|]; simpl; [|done].
  by rewrite list_lookup_imap.
Qed.

Lemma paint_widths (a : ndarray) (f : Z -> Z -> pixel -> pixel) :
  widths (paint a f) = widths a.
Proof.
  unfold widths, paint. apply list_eq. intros i.
  rewrite !list_lookup_fmap, list_lookup_imap.
  destruct (a !! i) as [row|]; simpl; [|done].
  by rewrite length_imap.
Qed.

Lemma setitem_widths (a a' : ndarray) (r c : Z) (v : pixel) :
  setitem a r c v = Ok a' -> widths a' = widths a.
Proof.
  unfold setitem.
  destruct ((0 <=? r) && (0 <=? c)); [|discriminate].
  destruct (a !! Z.to_nat r) as [row|] eqn:Hrow; [|discriminate].
  destruct (Z.to_nat c <? length row)%nat; [|discriminate].
  intros [= <-]. unfold widths.
  rewrite list_fmap_insert, length_insert.
  apply list_insert_id. by rewrite list_lookup_fmap, Hrow.
Qed.

Lemma write_cells_widths (v : ndarray) (ys xs : Z) (todo : list (Z * Z)) :
  forall a a', write_cells a v ys xs todo = Ok a' -> widths a' = widths a.
Proof.
  induction todo as [|[r c] rest IH]; intros a a' Hrun; simpl in Hrun.
  { by injection Hrun as <-. }
  destruct (getitem v _ _) as [p|]; [|discriminate]. simpl in Hrun.
  destruct (setitem a r c p) as [a1|] eqn:Hset; [|discriminate].
  simpl in Hrun. rewrite (IH _ _ Hrun). by eapply setitem_widths.
Qed.

Lemma slice_assign_widths (a a' v : ndarray) (y0 y1 x0 x1 : Z) :
  slice_assign a y0 y1 x0 x1 v = Ok a' -> widths a' = widths a.
Proof.
  unfold slice_assign.
  destruct (slice_indices y0 y1 (nrows a)) as [ys ye].
  destruct (slice_indices x0 x1 (ncols a)) as [xs xe].
  destruct (broadcastable _ _ && broadcastable _ _); [|discriminate].
  apply write_cells_widths.
Qed.

(** ** More on placing a stream *)

(** X11: where the placement [draw_original_stream] returns lies inside
    the canvas at non-negative coordinates, the call has changed the canvas
    object and nothing else: the rectangle of the placement holds the
    resized frame, every other element of the canvas is as before, and the
    canvas keeps its shape. *)
Theorem draw_original_stream_effect
    (interp : ndarray -> Z -> Z -> Z -> Z -> pixel) (self : CameraStreamUI)
    (panel frame : loc) (x y w h : Z) (ratio : float) (hp hp' : heap)
    (P : ndarray) (x1 y1 dh dw : Z) :
  hp !! panel = Some P ->
  draw_original_stream interp self panel frame x y w h ratio hp
  = Ok ((x1, y1, dh, dw), hp') ->
  0 <= x1 -> 0 <= y1 -> y1 + dh <= nrows P -> x1 + dw <= ncols P ->
  exists F P',
    hp !! frame = Some F /\ hp' = <[panel := P']> hp
    /\ widths P' = widths P
    /\ forall r c, 0 <= r -> 0 <= c ->
         pixel_at P' (Z.to_nat r) (Z.to_nat c)
         = if decide (y1 <= r < y1 + dh /\ x1 <= c < x1 + dw)
           then Some (interp F dw dh (r - y1) (c - x1))
           else pixel_at P (Z.to_nat r) (Z.to_nat c).
Proof.
  unfold draw_original_stream. intros HP Hrun Hx Hy Hfy Hfx.
  pose proof Hrun as Hinv.
  apply place_stream_inv in Hinv
    as (F & P0 & P' & dw0 & dh0 & HF & HP0 & _ & Hdw & Hdh & Hres & Hw & ->).
  assert (P0 = P) as -> by congruence.
  injection Hres as -> -> -> ->.
  exists F, P'. split; [exact HF|]. split; [reflexivity|].
  split; [by eapply slice_assign_widths|].
  by eapply slice_assign_pixels.
Qed.

Lemma draw_original_stream_effect_witness :
  exists hp' F P',
    draw_original_stream nearest_interp (init 0 0) 1%positive 2%positive
      0 1 9 10 default_ratio (sample_heap 3 4) = Ok ((2, 5, 3, 4), hp')
    /\ sample_heap 3 4 !! 2%positive = Some F
    /\ hp' = <[1%positive := P']> (sample_heap 3 4)
    /\ pixel_at P' 5 2 = Some (Pixel 0 7 200)
    /\ pixel_at P' 4 2 = Some (Pixel 40 40 40).
Proof.
  assert (exists hp',
             draw_original_stream nearest_interp (init 0 0) 1%positive
               2%positive 0 1 9 10 default_ratio (sample_heap 3 4)
             = Ok ((2, 5, 3, 4), hp')) as [hp' Hrun]
    by (eexists; vm_compute; reflexivity).
  assert (sample_heap 3 4 !! 1%positive
          = Some (tabulate 12 16 (fun _ _ => Pixel 40 40 40))) as HP
    by (vm_compute; reflexivity).
  destruct (draw_original_stream_effect _ _ _ _ _ _ _ _ _ _ _ _ _ _ _ _ HP Hrun
              ltac:(lia) ltac:(lia) ltac:(vm_compute; discriminate)
              ltac:(vm_compute; discriminate))
    as (F & P' & HF & Hhp & _ & Hpx).
  exists hp', F, P'. split; [exact Hrun|]. split; [exact HF|].
  split; [exact Hhp|].
  assert (sample_heap 3 4 !! 2%positive = Some (sample_frame 3 4)) as HF'
    by (vm_compute; reflexivity).
  assert (Some F = Some (sample_frame 3 4)) as [= ->]
    by (rewrite <- HF; exact HF').
  split.
  - pose proof (Hpx 5 2 ltac:(lia) ltac:(lia)) as H. vm_compute in H. exact H.
  - pose proof (Hpx 4 2 ltac:(lia) ltac:(lia)) as H. vm_compute in H. exact H.
Defined.

(** X12: with no filter selected the processed panel is drawn exactly as
    the original one would be on the same canvas: the same placement is
    returned and the same canvas results, or the same exception is raised.
    The only difference is the copy of the frame, a new object. *)
Theorem draw_processed_stream_unfiltered
    (interp : ndarray -> Z -> Z -> Z -> Z -> pixel) (self : CameraStreamUI)
    (panel frame : loc) (x y w h : Z) (ratio : float) (hp : heap)
    (F P : ndarray) :
  selected_filter self = None ->
  hp !! frame = Some F -> hp !! panel = Some P ->
  match draw_original_stream interp self panel frame x y w h ratio hp with
  | Ok (res, hp1) =>
      exists P',
        hp1 = <[panel := P']> hp
        /\ draw_processed_stream interp self panel frame x y w h ratio hp
           = Ok (res, <[panel := P']> (<[fresh (dom hp) := F]> hp))
  | Raise e =>
      draw_processed_stream interp self panel frame x y w h ratio hp = Raise e
  end.
Proof.
  intros Hsel HF HP.
  assert (hp !! fresh (dom hp) = None) as Hnew
    by (apply not_elem_of_dom, is_fresh).
  assert (fresh (dom hp) <> panel) as Hne by (intros E; congruence).
  unfold draw_processed_stream, draw_original_stream, processed_frame.
  rewrite Hsel. simpl.
  unfold ndarray_copy, place_stream, bind, load, alloc, lift, store, ret.
  rewrite HF. simpl. rewrite lookup_insert_eq.
  destruct (display_size F ratio) as [[dw dh]|e]; [|done].
  destruct (cv2_resize interp F dw dh) as [resized|e]; [|done].
  rewrite lookup_insert_ne by done. rewrite HP.
  destruct (slice_assign P _ _ _ _ resized) as [P'|e]; [|done].
  rewrite lookup_insert_ne by done. rewrite HP.
  exists P'. split; reflexivity.
Qed.

Lemma draw_processed_stream_unfiltered_witness :
  exists P',
    draw_processed_stream nearest_interp (init 0 0) 1%positive 2%positive
      0 1 9 10 default_ratio (sample_heap 3 4)
    = Ok ((2, 5, 3, 4),
          <[1%positive := P']>
            (<[fresh (dom (sample_heap 3 4)) := sample_frame 3 4]>
               (sample_heap 3 4))).
Proof.
  assert (sample_heap 3 4 !! 1%positive
          = Some (tabulate 12 16 (fun _ _ => Pixel 40 40 40))) as HP
    by (vm_compute; reflexivity).
  assert (sample_heap 3 4 !! 2%positive = Some (sample_frame 3 4)) as HF
    by (vm_compute; reflexivity).
  pose proof (draw_processed_stream_unfiltered nearest_interp (init 0 0)
                1%positive 2%positive 0 1 9 10 default_ratio (sample_heap 3 4)
                _ _ eq_refl HF HP) as H.
  assert (exists hp1,
             draw_original_stream nearest_interp (init 0 0) 1%positive
               2%positive 0 1 9 10 default_ratio (sample_heap 3 4)
             = Ok ((2, 5, 3, 4), hp1)) as [hp1 Hrun]
    by (eexists; vm_compute; reflexivity).
  rewrite Hrun in H. destruct H as (P' & _ & Hproc).
  exists P'. exact Hproc.
Defined.

(** ** Shapes decide where and whether a stream is drawn *)

Lemma pixel_at_defined (v1 v2 : ndarray) (i j : nat) :
  widths v1 = widths v2 ->
  is_Some (pixel_at v1 i j) -> is_Some (pixel_at v2 i j).
Proof.
  unfold pixel_at. intros Hw [p Hp].
  destruct (v1 !! i) as [row1|] eqn:E1; simpl in Hp; [|done].
  assert (widths v2 !! i = Some (length row1)) as E2
    by (rewrite <- Hw; unfold widths; by rewrite list_lookup_fmap, E1).
  unfold widths in E2. rewrite list_lookup_fmap in E2.
  destruct (v2 !! i) as [row2|]; simpl in *; [|done].
  injection E2 as E2. apply lookup_lt_is_Some_2.
  rewrite E2. by eapply lookup_lt_Some.
Qed.

Lemma getitem_same (v1 v2 : ndarray) (r c : Z) :
  widths v1 = widths v2 ->
  same_outcome (fun _ _ => True) (getitem v1 r c) (getitem v2 r c).
Proof.
  intros Hw. unfold getitem.
  destruct ((0 <=? r) && (0 <=? c)); [|done].
  pose proof (pixel_at_defined v1 v2 (Z.to_nat r) (Z.to_nat c) Hw) as H12.
  pose proof (pixel_at_defined v2 v1 (Z.to_nat r) (Z.to_nat c) (eq_sym Hw))
    as H21.
  destruct (pixel_at v1 _ _) as [p1|], (pixel_at v2 _ _) as [p2|]; simpl;
    try done.
  - by destruct (H12 ltac:(eauto)).
  - by destruct (H21 ltac:(eauto)).
Qed.

Lemma setitem_same (a1 a2 : ndarray) (r c : Z) (p1 p2 : pixel) :
  widths a1 = widths a2 ->
  same_outcome (fun b1 b2 => widths b1 = widths b2)
    (setitem a1 r c p1) (setitem a2 r c p2).
Proof.
  intros Hw.
  destruct (setitem a1 r c p1) as [b1|e1] eqn:E1,
           (setitem a2 r c p2) as [b2|e2] eqn:E2; simpl.
  - apply setitem_widths in E1, E2. congruence.
  - exfalso. revert E1 E2. unfold setitem.
    destruct ((0 <=? r) && (0 <=? c)); [|discriminate].
    destruct (a1 !! Z.to_nat r) as [row1|] eqn:R1; [|discriminate].
    destruct (Z.to_nat c <? length row1)%nat eqn:C1; [|discriminate].
    assert (widths a2 !! Z.to_nat r = Some (length row1)) as R2
      by (rewrite <- Hw; unfold widths; by rewrite list_lookup_fmap, R1).
    unfold widths in R2. rewrite list_lookup_fmap in R2.
    destruct (a2 !! Z.to_nat r) as [row2|]; simpl in R2; [|done].
    injection R2 as ->. by rewrite C1.
  - exfalso. revert E1 E2. unfold setitem.
    destruct ((0 <=? r) && (0 <=? c)); [|discriminate].
    destruct (a2 !! Z.to_nat r) as [row2|] eqn:R2; [|discriminate].
    destruct (Z.to_nat c <? length row2)%nat eqn:C2; [|discriminate].
    assert (widths a1 !! Z.to_nat r = Some (length row2)) as R1
      by (rewrite Hw; unfold widths; by rewrite list_lookup_fmap, R2).
    unfold widths in R1. rewrite list_lookup_fmap in R1.
    destruct (a1 !! Z.to_nat r) as [row1|]; simpl in R1; [|done].
    injection R1 as ->. by rewrite C2.
  - revert E1 E2. unfold setitem.
    repeat match goal with
           | |- context [match ?x with _ => _ end] => destruct x
           end; congruence.
Qed.

Lemma write_cells_same (v1 v2 : ndarray) (ys xs : Z) (todo : list (Z * Z)) :
  widths v1 = widths v2 ->
  forall a1 a2, widths a1 = widths a2 ->
    same_outcome (fun b1 b2 => widths b1 = widths b2)
      (write_cells a1 v1 ys xs todo) (write_cells a2 v2 ys xs todo).
Proof.
  intros Hv. destruct (same_widths _ _ Hv) as (Hn & Hm & _).
  induction todo as [|[r c] rest IH]; intros a1 a2 Ha; simpl; [exact Ha|].
  rewrite Hn, Hm.
  pose proof (getitem_same v1 v2 (if nrows v2 =? 1 then 0 else r - ys)
                (if ncols v2 =? 1 then 0 else c - xs) Hv) as Hget.
  destruct (getitem v1 _ _) as [p1|e1], (getitem v2 _ _) as [p2|e2];
    simpl in *; try done.
  pose proof (setitem_same a1 a2 r c p1 p2 Ha) as Hset.
  destruct (setitem a1 r c p1) as [b1|e1], (setitem a2 r c p2) as [b2|e2];
    simpl in *; try done.
  by apply IH.
Qed.

Lemma slice_assign_same (a1 a2 v1 v2 : ndarray) (y0 y1 x0 x1 : Z) :
  widths a1 = widths a2 -> widths v1 = widths v2 ->
  same_outcome (fun b1 b2 => widths b1 = widths b2)
    (slice_assign a1 y0 y1 x0 x1 v1) (slice_assign a2 y0 y1 x0 x1 v2).
Proof.
  intros Ha Hv. unfold slice_assign.
  destruct (same_widths _ _ Ha) as (-> & -> & _).
  destruct (same_widths _ _ Hv) as (-> & -> & _).
  destruct (slice_indices y0 y1 (nrows a2)) as [ys ye].
  destruct (slice_indices x0 x1 (ncols a2)) as [xs xe].
  destruct (broadcastable _ _ && broadcastable _ _); [|done].
  by apply write_cells_same.
Qed.

Lemma tabulate_widths (rows cols : Z) (f g : Z -> Z -> pixel) :
  widths (tabulate rows cols f) = widths (tabulate rows cols g).
Proof.
  unfold widths, tabulate. rewrite <- !list_fmap_compose.
  apply list_fmap_ext. intros i r _. simpl. by rewrite !length_fmap.
Qed.

Lemma display_size_shape (F1 F2 : ndarray) (ratio : float) :
  widths F1 = widths F2 -> display_size F1 ratio = display_size F2 ratio.
Proof.
  intros Hw. destruct (same_widths _ _ Hw) as (Hn & Hm & _).
  unfold display_size. by rewrite Hn, Hm.
Qed.

Lemma place_stream_same (interp : ndarray -> Z -> Z -> Z -> Z -> pixel)
    (panel frame1 frame2 : loc) (x y w h : Z) (ratio : float)
    (hp1 hp2 : heap) (F1 F2 P1 P2 : ndarray) :
  hp1 !! frame1 = Some F1 -> hp2 !! frame2 = Some F2 ->
  widths F1 = widths F2 ->
  hp1 !! panel = Some P1 -> hp2 !! panel = Some P2 ->
  widths P1 = widths P2 ->
  same_outcome (fun r1 r2 => fst r1 = fst r2)
    (place_stream interp panel frame1 x y w h ratio hp1)
    (place_stream interp panel frame2 x y w h ratio hp2).
Proof.
  intros HF1 HF2 HwF HP1 HP2 HwP.
  unfold place_stream, bind, load, lift, store, ret.
  rewrite HF1, HF2, (display_size_shape F1 F2 ratio HwF).
  destruct (display_size F2 ratio) as [[dw dh]|e]; [|done].
  unfold cv2_resize. destruct (same_widths _ _ HwF) as (-> & -> & _).
  destruct ((dw <=? 0) || (dh <=? 0) || (nrows F2 =? 0) || (ncols F2 =? 0));
    [done|].
  rewrite HP1, HP2.
  pose proof (slice_assign_same P1 P2
                (tabulate dh dw (interp F1 dw dh))
                (tabulate dh dw (interp F2 dw dh))
                (y + h / 2 - dh / 2) (y + h / 2 - dh / 2 + dh)
                (x + w / 2 - dw / 2) (x + w / 2 - dw / 2 + dw)
                HwP (tabulate_widths dh dw _ _)) as Hw.
  destruct (slice_assign P1 _ _ _ _ _) as [b1|e1],
           (slice_assign P2 _ _ _ _ _) as [b2|e2]; simpl in *; try done.
  by rewrite HP1, HP2.
Qed.

Lemma apply_filter_shape (h : heap) (frame : loc) (F : ndarray)
    (color : option string) :
  h !! frame = Some F ->
  exists F',
    apply_filter frame color h
    = Ok (fresh (dom h), <[fresh (dom h) := F']> h)
    /\ widths F' = widths F.
Proof.
  intros HF.
  destruct (decide (color = Some "red"%string)) as [-> | Hr].
  { eexists. split; [by apply (apply_filter_run h frame F "red" 2)|].
    apply assign_channel_zeros_widths. }
  destruct (decide (color = Some "green"%string)) as [-> | Hg].
  { eexists. split; [by apply (apply_filter_run h frame F "green" 1)|].
    apply assign_channel_zeros_widths. }
  destruct (decide (color = Some "blue"%string)) as [-> | Hb].
  { eexists. split; [by apply (apply_filter_run h frame F "blue" 0)|].
    apply assign_channel_zeros_widths. }
  exists (zeros_like F). split; [|apply zeros_like_widths].
  unfold apply_filter, bind, load, alloc, ret. rewrite HF. simpl.
  by repeat (case_decide; [congruence|]).
Qed.

(** X13: the filter never changes where or whether the processed panel is
    drawn. On one canvas, [draw_processed_stream] returns the placement
    [draw_original_stream] returns, and it raises exactly the exception the
    other raises, whatever is selected. *)
Theorem filter_keeps_placement
    (interp : ndarray -> Z -> Z -> Z -> Z -> pixel) (self : CameraStreamUI)
    (panel frame : loc) (x y w h : Z) (ratio : float) (hp : heap)
    (F P : ndarray) :
  hp !! frame = Some F -> hp !! panel = Some P ->
  match draw_original_stream interp self panel frame x y w h ratio hp,
        draw_processed_stream interp self panel frame x y w h ratio hp with
  | Ok (res, _), Ok (res', _) => res' = res
  | Raise e, Raise e' => e' = e
  | _, _ => False
  end.
Proof.
  intros HF HP.
  assert (hp !! fresh (dom hp) = None) as Hnew
    by (apply not_elem_of_dom, is_fresh).
  assert (fresh (dom hp) <> panel) as Hne by (intros E; congruence).
  assert (exists F',
             processed_frame self frame hp
             = Ok (fresh (dom hp), <[fresh (dom hp) := F']> hp)
             /\ widths F' = widths F) as (F' & Hproc & HwF).
  { unfold processed_frame. destruct (Py.truthy (selected_filter self)).
    - by apply apply_filter_shape.
    - exists F. split; [|done].
      unfold ndarray_copy, bind, load, alloc. by rewrite HF. }
  unfold draw_original_stream, draw_processed_stream, bind. rewrite Hproc.
  pose proof (place_stream_same interp panel frame (fresh (dom hp)) x y w h
                ratio hp (<[fresh (dom hp) := F']> hp) F F' P P HF
                ltac:(apply lookup_insert_eq) (eq_sym HwF) HP
                ltac:(by rewrite lookup_insert_ne) eq_refl) as Hsame.
  destruct (place_stream interp panel frame x y w h ratio hp)
    as [[res hp1]|e],
    (place_stream interp panel (fresh (dom hp)) x y w h ratio
       (<[fresh (dom hp) := F']> hp)) as [[res' hp2]|e']; simpl in *; done.
Qed.

Lemma filter_keeps_placement_witness :
  exists hp',
    draw_processed_stream nearest_interp
      (set_selected_filter (init 0 0) (Some "green"%string))
      1%positive 2%positive 0 1 9 10 default_ratio (sample_heap 3 4)
    = Ok ((2, 5, 3, 4), hp').
Proof.
  assert (sample_heap 3 4 !! 1%positive
          = Some (tabulate 12 16 (fun _ _ => Pixel 40 40 40))) as HP
    by (vm_compute; reflexivity).
  assert (sample_heap 3 4 !! 2%positive = Some (sample_frame 3 4)) as HF
    by (vm_compute; reflexivity).
  pose proof (filter_keeps_placement nearest_interp
                (set_selected_filter (init 0 0) (Some "green"%string))
                1%positive 2%positive 0 1 9 10 default_ratio (sample_heap 3 4)
                _ _ HF HP) as H.
  assert (exists hp1,
             draw_original_stream nearest_interp
               (set_selected_filter (init 0 0) (Some "green"%string))
               1%positive 2%positive 0 1 9 10 default_ratio (sample_heap 3 4)
             = Ok ((2, 5, 3, 4), hp1)) as [hp1 Hrun]
    by (eexists; vm_compute; reflexivity).
  rewrite Hrun in H.
  destruct (draw_processed_stream _ _ _ _ _ _ _ _ _ _) as [[res' hp']|e];
    [|contradiction].
  exists hp'. by rewrite H.
Defined.

(** ** The canvas handed to the window *)

Lemma tabulate_widths_replicate (rows cols : Z) (f : Z -> Z -> pixel) :
  widths (tabulate rows cols f) = replicate (Z.to_nat rows) (Z.to_nat cols).
Proof.
  unfold widths, tabulate. rewrite <- list_fmap_compose.
  rewrite <- (length_seqZ 0 rows). apply const_fmap.
  intros i r _. simpl. by rewrite length_fmap, length_seqZ.
Qed.

Section Canvas.

Variable interp : ndarray -> Z -> Z -> Z -> Z -> pixel.
Variable ink :
  CameraStreamUI -> list (string * rect) -> Z -> Z -> Z -> Z -> pixel -> pixel.

Lemma draw_header_shaped (self : CameraStreamUI) (panel : loc) (x y w h : Z)
    (ws : list nat) (hp hp' : heap) (r : unit) :
  shaped panel ws hp ->
  draw_header ink self panel x y w h hp = Ok (r, hp') ->
  shaped panel ws hp'.
Proof.
  intros (P & HP & Hw). unfold draw_header, bind, load, store. rewrite HP.
  destruct (slice_indices y (y + h) (nrows P)) as [ys ye].
  destruct (slice_indices x (x + w) (ncols P)) as [xs xe].
  rewrite HP. intros [= _ <-]. eexists.
  split; [apply lookup_insert_eq|]. by rewrite paint_widths.
Qed.

Lemma draw_footer_shaped (panel : loc) (x y w h : Z)
    (ws : list nat) (hp hp' : heap) (r : unit) :
  shaped panel ws hp ->
  draw_footer panel x y w h hp = Ok (r, hp') ->
  shaped panel ws hp'.
Proof.
  intros (P & HP & Hw). unfold draw_footer, bind, load, store. rewrite HP.
  simpl. rewrite HP. intros [= _ <-]. eexists.
  split; [apply lookup_insert_eq|]. unfold cv2_rectangle.
  by rewrite paint_widths.
Qed.

Lemma place_stream_shaped (panel frame : loc) (x y w h : Z) (ratio : float)
    (ws : list nat) (hp hp' : heap) (res : Z * Z * Z * Z) :
  shaped panel ws hp ->
  place_stream interp panel frame x y w h ratio hp = Ok (res, hp') ->
  shaped panel ws hp'.
Proof.
  intros (P & HP & Hw) Hrun.
  apply place_stream_inv in Hrun
    as (F & P0 & P' & dw & dh & _ & HP0 & _ & _ & _ & _ & Hwrite & ->).
  assert (P0 = P) as -> by congruence.
  exists P'. split; [apply lookup_insert_eq|].
  rewrite <- Hw. by eapply slice_assign_widths.
Qed.

Lemma draw_processed_stream_shaped (self : CameraStreamUI)
    (panel frame : loc) (x y w h : Z) (ratio : float)
    (ws : list nat) (hp hp' : heap) (res : Z * Z * Z * Z) :
  shaped panel ws hp ->
  draw_processed_stream interp self panel frame x y w h ratio hp
  = Ok (res, hp') ->
  shaped panel ws hp'.
Proof.
  intros (P & HP & Hw). unfold draw_processed_stream, bind.
  destruct (processed_frame self frame hp) as [[proc hp1]|e] eqn:Hproc;
    [|discriminate].
  intros Hrun. eapply place_stream_shaped; [|exact Hrun].
  exists P. split; [|exact Hw].
  assert (hp !! fresh (dom hp) = None) as Hnew
    by (apply not_elem_of_dom, is_fresh).
  assert (fresh (dom hp) <> panel) as Hne by (intros E; congruence).
  destruct (hp !! frame) as [F|] eqn:HF.
  - destruct (processed_frame_total self hp frame F HF) as [F' Hp].
    rewrite Hp in Hproc. injection Hproc as <- <-.
    by rewrite lookup_insert_ne.
  - exfalso. revert Hproc.
    unfold processed_frame, apply_filter, ndarray_copy, bind, load.
    destruct (Py.truthy _); by rewrite HF.
Qed.

Lemma compose_canvas (self : CameraStreamUI) (frame : ndarray)
    (screen_w screen_h : Z) (l : layout) (h h' : heap) (canvas : ndarray) :
  compose interp ink self frame screen_w screen_h l h = Ok (canvas, h') ->
  widths canvas = replicate (Z.to_nat screen_h) (Z.to_nat screen_w).
Proof.
  unfold compose, bind at 1. unfold alloc at 1.
  set (h0 := <[fresh (dom h) := frame]> h).
  unfold bind at 1, np_full.
  destruct ((screen_h <? 0) || (screen_w <? 0)); [discriminate|].
  unfold alloc at 1.
  set (panel := fresh (dom h0)).
  set (h1 := <[panel := tabulate screen_h screen_w (fun _ _ => bg_color self)]> h0).
  assert (shaped panel (replicate (Z.to_nat screen_h) (Z.to_nat screen_w)) h1)
    as Hs1.
  { eexists. split; [apply lookup_insert_eq|].
    apply tabulate_widths_replicate. }
  destruct (header_rect l) as [[[x1 y1] w1] hh1].
  destruct (footer_rect l) as [[[x2 y2] w2] hh2].
  destruct (orig_rect l) as [[[x3 y3] w3] hh3].
  destruct (proc_rect l) as [[[x4 y4] w4] hh4].
  unfold bind.
  destruct (draw_header ink self panel x1 y1 w1 hh1 h1) as [[r2 h2]|e] eqn:E2;
    [|discriminate].
  pose proof (draw_header_shaped _ _ _ _ _ _ _ _ _ _ Hs1 E2) as Hs2.
  destruct (draw_footer panel x2 y2 w2 hh2 h2) as [[r3 h3]|e] eqn:E3;
    [|discriminate].
  pose proof (draw_footer_shaped _ _ _ _ _ _ _ _ _ Hs2 E3) as Hs3.
  destruct (draw_original_stream interp self panel (fresh (dom h)) x3 y3 w3 hh3
              default_ratio h3) as [[r4 h4]|e] eqn:E4; [|discriminate].
  pose proof (place_stream_shaped _ _ _ _ _ _ _ _ _ _ _ Hs3 E4) as Hs4.
  destruct (draw_processed_stream interp self panel (fresh (dom h)) x4 y4 w4 hh4
              default_ratio h4) as [[r5 h5]|e] eqn:E5; [|discriminate].
  pose proof (draw_processed_stream_shaped _ _ _ _ _ _ _ _ _ _ _ _ Hs4 E5)
    as (P & HP & Hw).
  unfold load. rewrite HP. by intros [= <- _].
Qed.

Lemma main_loop_canvases (screen_w screen_h : Z) (l : layout)
    (todo : list tick) :
  forall (self : CameraStreamUI) (h : heap),
    Forall (fun ev =>
              match ev with
              | EvImshow name canvas =>
                  name = window_name
                  /\ widths canvas
                     = replicate (Z.to_nat screen_h) (Z.to_nat screen_w)
              | EvPrint msg => msg = "Error: Failed to read frame."%string
              | _ => False
              end)
      (snd (main_loop interp ink self screen_w screen_h l h todo)).
Proof.
  induction todo as [|t rest IH]; intros self h; simpl; [constructor|].
  destruct (tk_read t) as [frame|]; [|by repeat constructor].
  destruct (update_fps self (tk_time t)) as [self1|e]; [|constructor].
  destruct (compose interp ink self1 frame screen_w screen_h l h)
    as [[canvas h1]|e] eqn:Hc; [|constructor].
  apply compose_canvas in Hc.
  destruct (Z.land (tk_key t) 255 =? 113); [by repeat constructor|].
  match goal with |- context [main_loop interp ink ?s _ _ _ ?hp rest] =>
    specialize (IH s hp);
    destruct (main_loop interp ink s screen_w screen_h l hp rest)
      as [[o s'] evs] end.
  simpl in *. by constructor.
Qed.

End Canvas.

(** X14: every canvas [run] hands to [cv2.imshow] goes to the window
    'Percept3D' and has exactly the screen's shape: [screen_h] rows of
    [screen_w] elements each, whatever the frames, the selection and the
    drawing did. *)
Theorem run_canvas_has_screen_shape
    (interp : ndarray -> Z -> Z -> Z -> Z -> pixel)
    (ink : CameraStreamUI -> list (string * rect) -> Z -> Z -> Z -> Z ->
           pixel -> pixel)
    (self : CameraStreamUI) (w : world) :
  Forall (fun ev =>
            match ev with
            | EvImshow name canvas =>
                name = "Percept3D"%string
                /\ widths canvas
                   = replicate (Z.to_nat (snd (screen_resolution w)))
                       (Z.to_nat (fst (screen_resolution w)))
            | _ => True
            end)
    (snd (run interp ink self w)).
Proof.
  unfold run.
  destruct (cap_isOpened w); simpl; [|by repeat constructor].
  destruct (first_read w) as [frame|]; [|by repeat constructor].
  destruct (Py.truediv _ _); [|by repeat constructor].
  destruct (screen_resolution w) as [screen_w screen_h]. simpl.
  destruct (compute_layout screen_w screen_h) as [l|e];
    [|by repeat constructor].
  pose proof (main_loop_canvases interp ink screen_w screen_h l (ticks w)
                self ∅) as Hevs.
  destruct (main_loop interp ink self screen_w screen_h l ∅ (ticks w))
    as [[o s] evs]. simpl in Hevs.
  assert (Forall (fun ev =>
                    match ev with
                    | EvImshow name canvas =>
                        name = "Percept3D"%string
                        /\ widths canvas
                           = replicate (Z.to_nat screen_h) (Z.to_nat screen_w)
                    | _ => True
                    end) evs) as Hevs'
    by (eapply Forall_impl; [exact Hevs|]; by intros []).
  destruct o; simpl; repeat (constructor; [done|]);
    rewrite ?Forall_app; repeat split; try done; by repeat constructor.
Qed.

(** ** What the session does, and when *)

Lemma main_loop_shows_or_prints
    (interp : ndarray -> Z -> Z -> Z -> Z -> pixel)
    (ink : CameraStreamUI -> list (string * rect) -> Z -> Z -> Z -> Z ->
           pixel -> pixel)
    (self : CameraStreamUI) (screen_w screen_h : Z) (l : layout) (h : heap)
    (todo : list tick) (ev : event) :
  ev ∈ snd (main_loop interp ink self screen_w screen_h l h todo) ->
  (exists name canvas, ev = EvImshow name canvas) \/ (exists msg, ev = EvPrint msg).
Proof.
  pose proof (main_loop_canvases interp ink screen_w screen_h l todo self h)
    as Hall.
  rewrite Forall_forall in Hall. intros Hin. specialize (Hall ev Hin).
  destruct ev; try done; eauto.
Qed.

(** X15: the capture is released exactly when [run] returns after having
    read its first frame, that is, when the loop was left by the quit key
    or by a failed read; the windows are destroyed in exactly the same
    runs; and the window is created exactly when the capture had opened.
    So a failed first read, an exception that leaves the loop and a session
    still looping all have the window without the cleanup. *)
Theorem run_cleanup_iff
    (interp : ndarray -> Z -> Z -> Z -> Z -> pixel)
    (ink : CameraStreamUI -> list (string * rect) -> Z -> Z -> Z -> Z ->
           pixel -> pixel)
    (self : CameraStreamUI) (w : world) :
  let '(o, _, evs) := run interp ink self w in
  (EvRelease ∈ evs
   <-> o = Returned /\ cap_isOpened w = true /\ is_Some (first_read w))
  /\ (EvDestroyAllWindows ∈ evs <-> EvRelease ∈ evs)
  /\ (EvNamedWindow "Percept3D" ∈ evs <-> cap_isOpened w = true).
Proof.
  unfold run.
  destruct (cap_isOpened w); simpl.
  2:{ rewrite !elem_of_cons, !elem_of_nil. naive_solver. }
  destruct (first_read w) as [frame|].
  2:{ simpl. rewrite !elem_of_cons, !elem_of_nil.
      split; [|split]; try naive_solver.
      all: split; [naive_solver|]; intros (_ & _ & [? ?]); discriminate. }
  destruct (Py.truediv _ _).
  2:{ rewrite !elem_of_cons, !elem_of_nil. naive_solver. }
  destruct (screen_resolution w) as [screen_w screen_h].
  destruct (compute_layout screen_w screen_h) as [l|e].
  2:{ rewrite !elem_of_cons, !elem_of_nil. naive_solver. }
  pose proof (main_loop_shows_or_prints interp ink self screen_w screen_h l ∅
                (ticks w)) as Hkind.
  destruct (main_loop interp ink self screen_w screen_h l ∅ (ticks w))
    as [[o s] evs]. simpl in Hkind.
  assert (EvRelease ∉ evs) as HnR
    by (intros Hin; destruct (Hkind _ Hin) as [(? & ? & ?) | (? & ?)]; discriminate).
  assert (EvDestroyAllWindows ∉ evs) as HnD
    by (intros Hin; destruct (Hkind _ Hin) as [(? & ? & ?) | (? & ?)]; discriminate).
  destruct o; simpl;
    rewrite ?elem_of_cons, ?elem_of_app, ?elem_of_cons, ?elem_of_nil;
    naive_solver.
Qed.

(** X16: the three buttons are drawn 'Red', 'Green', 'Blue' from left to
    right, all of one size and on one row, each starting one button width
    plus one margin after the one before. The group is centred in the
    header: the free space left of it and right of it differ by at most one
    pixel, and so do the space above and below. With a positive margin no
    two buttons touch. *)
Theorem header_buttons_geometry (self : CameraStreamUI) (w h : Z) :
  exists x0 y0,
    header_buttons self w h
    = [("Red"%string, (x0, y0, button_width self, button_height self));
       ("Green"%string,
        (x0 + (button_width self + button_margin self), y0,
         button_width self, button_height self));
       ("Blue"%string,
        (x0 + 2 * (button_width self + button_margin self), y0,
         button_width self, button_height self))]
    /\ 0 <= (w - (x0 + 3 * button_width self + 2 * button_margin self)) - x0 <= 1
    /\ 0 <= (h - (y0 + button_height self)) - y0 <= 1
    /\ (0 < button_margin self ->
        x0 + button_width self
        < x0 + (button_width self + button_margin self)
        /\ x0 + (button_width self + button_margin self) + button_width self
           < x0 + 2 * (button_width self + button_margin self)).
Proof.
  exists ((w - (3 * button_width self + 2 * button_margin self)) / 2),
         ((h - button_height self) / 2).
  split.
  { unfold header_buttons. simpl. repeat f_equal; lia. }
  pose proof (Z.div_mod (w - (3 * button_width self + 2 * button_margin self)) 2
                ltac:(lia)).
  pose proof (Z.mod_pos_bound
                (w - (3 * button_width self + 2 * button_margin self)) 2
                ltac:(lia)).
  pose proof (Z.div_mod (h - button_height self) 2 ltac:(lia)).
  pose proof (Z.mod_pos_bound (h - button_height self) 2 ltac:(lia)).
  repeat split; lia.
Qed.

Lemma main_loop_stops (interp : ndarray -> Z -> Z -> Z -> Z -> pixel)
    (ink : CameraStreamUI -> list (string * rect) -> Z -> Z -> Z -> Z ->
           pixel -> pixel)
    (screen_w screen_h : Z) (l : layout) (todo rest : list tick) :
  forall (self : CameraStreamUI) (h : heap),
    fst (fst (main_loop interp ink self screen_w screen_h l h todo)) <> Looping ->
    main_loop interp ink self screen_w screen_h l h (todo ++ rest)
    = main_loop interp ink self screen_w screen_h l h todo.
Proof.
  induction todo as [|t todo IH]; intros self h Hend; simpl in *; [done|].
  destruct (tk_read t) as [frame|]; [|done].
  destruct (update_fps self (tk_time t)) as [self1|e]; [|done].
  destruct (compose interp ink self1 frame screen_w screen_h l h)
    as [[canvas h1]|e]; [|done].
  destruct (Z.land (tk_key t) 255 =? 113); [done|].
  rewrite IH; [done|].
  by destruct (main_loop interp ink _ screen_w screen_h l h1 todo) as [[o s] evs].
Qed.

(** X17: once [run] has returned or raised on the inputs of some
    iterations, inputs for further iterations change nothing: after the
    quit key, a failed read or an exception, no frame is read or shown, no
    pointer event is handled and no key is looked at. *)
Theorem run_ignores_later_input
    (interp : ndarray -> Z -> Z -> Z -> Z -> pixel)
    (ink : CameraStreamUI -> list (string * rect) -> Z -> Z -> Z -> Z ->
           pixel -> pixel)
    (self : CameraStreamUI) (w : world) (todo rest : list tick) :
  fst (fst (run interp ink self (with_ticks w todo))) <> Looping ->
  run interp ink self (with_ticks w (todo ++ rest))
  = run interp ink self (with_ticks w todo).
Proof.
  unfold run, with_ticks. simpl.
  destruct (cap_isOpened w); simpl; [|done].
  destruct (first_read w) as [frame|]; [|done].
  destruct (Py.truediv _ _); [|done].
  destruct (screen_resolution w) as [screen_w screen_h].
  destruct (compute_layout screen_w screen_h) as [l|e]; [|done].
  intros Hend. rewrite main_loop_stops; [done|].
  destruct (main_loop interp ink self screen_w screen_h l ∅ todo)
    as [[o s] evs]. by destruct o.
Qed.

Lemma run_ignores_later_input_witness :
  run nearest_interp no_ink (init 0 0)
    (with_ticks (sample_world (Some (sample_frame 3 4)) [])
       ([sample_tick (Some (sample_frame 3 4)) 1 [] 113]
        ++ [sample_tick (Some (sample_frame 6 10)) 2 [] 0]))
  = run nearest_interp no_ink (init 0 0)
      (with_ticks (sample_world (Some (sample_frame 3 4)) [])
         [sample_tick (Some (sample_frame 3 4)) 1 [] 113]).
Proof.
  apply (run_ignores_later_input nearest_interp no_ink).
  vm_compute. discriminate.
Defined.

(** X18: a first frame without rows. [run] has created the window by the
    time it divides the frame's width by its height, so the
    [ZeroDivisionError] leaves it with the window created and the capture
    open, nothing printed and nothing cleaned up. *)
Theorem run_empty_first_frame
    (interp : ndarray -> Z -> Z -> Z -> Z -> pixel)
    (ink : CameraStreamUI -> list (string * rect) -> Z -> Z -> Z -> Z ->
           pixel -> pixel)
    (self : CameraStreamUI) (w : world) :
  cap_isOpened w = true -> first_read w = Some [] ->
  run interp ink self w
  = (Uncaught ZeroDivisionError, self,
     [EvNamedWindow "Percept3D"; EvSetWindowProperty "Percept3D"]).
Proof. intros Hopen Hfirst. unfold run. by rewrite Hopen, Hfirst. Qed.

Lemma run_empty_first_frame_witness :
  run nearest_interp no_ink (init 0 0) (sample_world (Some []) [])
  = (Uncaught ZeroDivisionError, init 0 0,
     [EvNamedWindow "Percept3D"; EvSetWindowProperty "Percept3D"]).
Proof.
  apply (run_empty_first_frame nearest_interp no_ink); reflexivity.
Defined.

(** X19: the look of the buttons follows the selection. With a selection
    out of [None], 'red', 'green', 'blue', the button whose lower-cased
    name is the selection is filled with its colour of line 54 brightened,
    each channel raised by 60 and capped at 255, and is opaque; every other
    button is filled with its colour of line 54 as it stands, at the
    opacity 0.92. So at most one button is opaque; every channel of every
    fill colour is within 0..255; and the strongest channel of a button's
    fill colour is the channel [apply_filter] keeps for that button's
    name. *)
Theorem button_styles_follow_selection (self : CameraStreamUI) :
  valid_filter (selected_filter self) ->
  let styles := button_styles self in
  (fst <$> (fst <$> styles)) = button_names
  /\ (forall i name base,
        button_names !! i = Some name -> button_colors !! i = Some base ->
        exists color alpha,
          styles !! i = Some (name, color, alpha)
          /\ (selected_filter self = Some (lower name) ->
              alpha = 1.0%float
              /\ forall j, 0 <= j <= 2 ->
                   chan j color = Z.min 255 (chan j base + 60))
          /\ (selected_filter self <> Some (lower name) ->
              alpha = 0.92%float /\ color = base))
  /\ Forall (fun s =>
              let '(name, color, alpha) := s in
              (selected_filter self = Some (lower name) -> alpha = 1.0%float)
              /\ (selected_filter self <> Some (lower name) ->
                  alpha = 0.92%float)
              /\ (0 <= ch0 color <= 255 /\ 0 <= ch1 color <= 255
                  /\ 0 <= ch2 color <= 255)
              /\ exists k, channel_of (lower name) = Some k
                           /\ forall j, 0 <= j <= 2 -> j <> k ->
                                chan j color < chan k color)
       styles
  /\ (length (filter (fun s => PrimFloat.eqb (snd s) 1.0 = true) styles)
      = if decide (selected_filter self = None) then 0%nat else 1%nat).
Proof.
  intros Hvalid.
  unfold button_styles, btn_color, btn_alpha, button_colors, button_names.
  destruct Hvalid as [-> | [-> | [-> | ->]]]; simpl;
    (split; [reflexivity|]); (split; [|split; [|reflexivity]]).
  all: try (intros i name base Hname Hbase;
            destruct i as [|[|[|i]]]; simpl in Hname, Hbase; try discriminate;
            injection Hname as <-; injection Hbase as <-;
            eexists; eexists; (split; [reflexivity|]);
            split; intros Hsel; try done; (split; [reflexivity|]);
            intros j Hj;
            assert (j = 0 \/ j = 1 \/ j = 2) as [-> | [-> | ->]] by lia;
            reflexivity).
  all: repeat constructor; try done; try (simpl; lia);
    (first [exists 2; split; [vm_compute; reflexivity|]
           | exists 1; split; [vm_compute; reflexivity|]
           | exists 0; split; [vm_compute; reflexivity|]]);
    intros j Hj Hne;
    assert (j = 0 \/ j = 1 \/ j = 2) as [-> | [-> | ->]] by lia;
    vm_compute; done.
Qed.

Lemma button_styles_follow_selection_witness :
  button_styles (set_selected_filter (init 0 0) (Some "green"%string))
  = [("Red"%string, Pixel 60 60 220, 0.92%float);
     ("Green"%string, Pixel 120 255 120, 1.0%float);
     ("Blue"%string, Pixel 220 60 60, 0.92%float)]
  /\ (exists color alpha,
        button_styles (set_selected_filter (init 0 0) (Some "green"%string))
          !! 1%nat = Some ("Green"%string, color, alpha)
        /\ alpha = 1.0%float
        /\ chan 1 color = Z.min 255 (chan 1 (Pixel 60 220 60) + 60)
        /\ chan 2 color = Z.min 255 (chan 2 (Pixel 60 220 60) + 60))
  /\ length (filter (fun s => PrimFloat.eqb (snd s) 1.0 = true)
               (button_styles
                  (set_selected_filter (init 0 0) (Some "green"%string))))
     = 1%nat.
Proof.
  split; [reflexivity|].
  destruct (button_styles_follow_selection
              (set_selected_filter (init 0 0) (Some "green"%string))
              ltac:(right; right; left; reflexivity)) as (_ & Hfill & _ & Hone).
  split; [|exact Hone].
  destruct (Hfill 1%nat "Green"%string (Pixel 60 220 60) eq_refl eq_refl)
    as (color & alpha & Hstyle & Hsel & _).
  destruct (Hsel eq_refl) as [Halpha Hchan].
  exists color, alpha. split; [exact Hstyle|]. split; [exact Halpha|].
  split; apply Hchan; lia.
Defined.

(** ** What a tick leaves of the objects it found *)

Lemma keeps_others_refl (panel : loc) (hp : heap) : keeps_others panel hp hp.
Proof. by intros l _ _. Qed.

Lemma keeps_others_trans (panel : loc) (hp1 hp2 hp3 : heap) :
  keeps_others panel hp1 hp2 -> keeps_others panel hp2 hp3 ->
  keeps_others panel hp1 hp3.
Proof.
  intros H12 H23 l Hl Hin. rewrite <- (H12 l Hl Hin).
  apply H23; [done|]. by rewrite (H12 l Hl Hin).
Qed.

Lemma keeps_others_insert (panel : loc) (hp : heap) (P : ndarray) :
  keeps_others panel hp (<[panel := P]> hp).
Proof. intros l Hl _. by rewrite lookup_insert_ne. Qed.

Section Others.

Variable interp : ndarray -> Z -> Z -> Z -> Z -> pixel.
Variable ink :
  CameraStreamUI -> list (string * rect) -> Z -> Z -> Z -> Z -> pixel -> pixel.

Lemma draw_header_keeps (self : CameraStreamUI) (panel : loc) (x y w h : Z)
    (hp hp' : heap) (r : unit) :
  draw_header ink self panel x y w h hp = Ok (r, hp') ->
  keeps_others panel hp hp'.
Proof.
  unfold draw_header, bind, load, store.
  destruct (hp !! panel) as [P|] eqn:HP; [|discriminate].
  destruct (slice_indices y (y + h) (nrows P)) as [ys ye].
  destruct (slice_indices x (x + w) (ncols P)) as [xs xe].
  rewrite HP. intros [= _ <-]. apply keeps_others_insert.
Qed.

Lemma draw_footer_keeps (panel : loc) (x y w h : Z) (hp hp' : heap)
    (r : unit) :
  draw_footer panel x y w h hp = Ok (r, hp') -> keeps_others panel hp hp'.
Proof.
  unfold draw_footer, bind, load, store.
  destruct (hp !! panel) as [P|] eqn:HP; [|discriminate].
  simpl. rewrite HP. intros [= _ <-]. apply keeps_others_insert.
Qed.

Lemma place_stream_keeps (panel frame : loc) (x y w h : Z) (ratio : float)
    (hp hp' : heap) (res : Z * Z * Z * Z) :
  place_stream interp panel frame x y w h ratio hp = Ok (res, hp') ->
  keeps_others panel hp hp'.
Proof.
  intros Hrun. apply place_stream_inv in Hrun
    as (F & P & P' & dw & dh & _ & _ & _ & _ & _ & _ & _ & ->).
  apply keeps_others_insert.
Qed.

Lemma draw_processed_stream_keeps (self : CameraStreamUI)
    (panel frame : loc) (x y w h : Z) (ratio : float) (hp hp' : heap)
    (res : Z * Z * Z * Z) :
  draw_processed_stream interp self panel frame x y w h ratio hp
  = Ok (res, hp') ->
  keeps_others panel hp hp'.
Proof.
  unfold draw_processed_stream, bind.
  destruct (processed_frame self frame hp) as [[proc hp1]|e] eqn:Hproc;
    [|discriminate].
  intros Hrun. apply place_stream_keeps in Hrun.
  eapply keeps_others_trans; [|exact Hrun].
  assert (hp !! fresh (dom hp) = None) as Hnew
    by (apply not_elem_of_dom, is_fresh).
  destruct (hp !! frame) as [F|] eqn:HF.
  - destruct (processed_frame_total self hp frame F HF) as [F' Hp].
    rewrite Hp in Hproc. injection Hproc as <- <-.
    intros l _ [a Ha]. rewrite lookup_insert_ne; [done | congruence].
  - exfalso. revert Hproc.
    unfold processed_frame, apply_filter, ndarray_copy, bind, load.
    destruct (Py.truthy _); by rewrite HF.
Qed.

(** X20: composing a canvas leaves every object it found as it was, and
    the camera frame it was given as well: the frame both panels are drawn
    from is never written to, whatever filter is selected. Only new objects
    appear (the frame, the canvas and the filtered frame). *)
Theorem compose_keeps_frame (self : CameraStreamUI) (frame : ndarray)
    (screen_w screen_h : Z) (l : layout) (h h' : heap) (canvas : ndarray) :
  compose interp ink self frame screen_w screen_h l h = Ok (canvas, h') ->
  h' !! fresh (dom h) = Some frame
  /\ forall l0, is_Some (h !! l0) -> h' !! l0 = h !! l0.
Proof.
  unfold compose, bind at 1. unfold alloc at 1.
  set (h0 := <[fresh (dom h) := frame]> h).
  unfold bind at 1, np_full.
  destruct ((screen_h <? 0) || (screen_w <? 0)); [discriminate|].
  unfold alloc at 1.
  set (panel := fresh (dom h0)).
  set (h1 := <[panel := tabulate screen_h screen_w (fun _ _ => bg_color self)]> h0).
  assert (h0 !! panel = None) as Hpanel by (apply not_elem_of_dom, is_fresh).
  assert (h !! fresh (dom h) = None) as Hframe
    by (apply not_elem_of_dom, is_fresh).
  assert (keeps_others panel h0 h1) as K1 by apply keeps_others_insert.
  destruct (header_rect l) as [[[x1 y1] w1] hh1].
  destruct (footer_rect l) as [[[x2 y2] w2] hh2].
  destruct (orig_rect l) as [[[x3 y3] w3] hh3].
  destruct (proc_rect l) as [[[x4 y4] w4] hh4].
  unfold bind.
  destruct (draw_header ink self panel x1 y1 w1 hh1 h1) as [[r2 h2]|e] eqn:E2;
    [|discriminate].
  apply draw_header_keeps in E2.
  destruct (draw_footer panel x2 y2 w2 hh2 h2) as [[r3 h3]|e] eqn:E3;
    [|discriminate].
  apply draw_footer_keeps in E3.
  destruct (draw_original_stream interp self panel (fresh (dom h)) x3 y3 w3 hh3
              default_ratio h3) as [[r4 h4]|e] eqn:E4; [|discriminate].
  apply place_stream_keeps in E4.
  destruct (draw_processed_stream interp self panel (fresh (dom h)) x4 y4 w4 hh4
              default_ratio h4) as [[r5 h5]|e] eqn:E5; [|discriminate].
  apply draw_processed_stream_keeps in E5.
  pose proof (keeps_others_trans _ _ _ _
                (keeps_others_trans _ _ _ _
                   (keeps_others_trans _ _ _ _
                      (keeps_others_trans _ _ _ _ K1 E2) E3) E4) E5) as K.
  unfold load. destruct (h5 !! panel); [|discriminate]. intros [= _ <-].
  assert (h0 !! fresh (dom h) = Some frame) as H0 by apply lookup_insert_eq.
  assert (fresh (dom h) <> panel) as Hne by (intros E; congruence).
  split.
  - rewrite (K _ Hne ltac:(by eexists)). exact H0.
  - intros q [a Ha].
    assert (q <> fresh (dom h)) as Hl0 by (intros E; congruence).
    assert (h0 !! q = Some a) as Ha0
      by (unfold h0; by rewrite lookup_insert_ne).
    assert (q <> panel) as Hl1 by (intros E; congruence).
    rewrite (K _ Hl1 ltac:(by eexists)). by rewrite Ha0.
Qed.

End Others.

Lemma compose_keeps_frame_witness :
  exists canvas h',
    compose nearest_interp no_ink
      (set_selected_filter (init 0 0) (Some "red"%string))
      (sample_frame 3 4) 16 12
      {| header_rect := (0, 0, 16, 1); footer_rect := (0, 11, 16, 1);
         orig_rect := (0, 1, 8, 10); proc_rect := (8, 1, 8, 10) |} ∅
    = Ok (canvas, h')
    /\ h' !! fresh (dom (∅ : heap)) = Some (sample_frame 3 4).
Proof.
  assert (exists canvas h',
             compose nearest_interp no_ink
               (set_selected_filter (init 0 0) (Some "red"%string))
               (sample_frame 3 4) 16 12
               {| header_rect := (0, 0, 16, 1); footer_rect := (0, 11, 16, 1);
                  orig_rect := (0, 1, 8, 10); proc_rect := (8, 1, 8, 10) |} ∅
             = Ok (canvas, h')) as (canvas & h' & Hrun)
    by (do 2 eexists; vm_compute; reflexivity).
  exists canvas, h'. split; [exact Hrun|].
  exact (proj1 (compose_keeps_frame nearest_interp no_ink _ _ _ _ _ _ _ _ Hrun)).
Defined.
